(** * NISTDB19Dataset: a shallow embedding of
    [alphabet_recogniser/datasets/nistdb19.py]

    The Python class is embedded as state-passing functions over an explicit
    world (file system, standard input, log of external calls).  Exceptions
    are values of [result]; the object under construction is threaded through
    the methods that mutate it.  The collaborators the module imports
    ([check_integrity], [download_and_extract_archive], [skimage.io.imread],
    [compress_pickle], [os.path.expanduser]) are an interface, so every
    statement below holds for any implementation of them. *)

From Stdlib Require Import ZArith String Ascii List Lia.
From Stdlib Require Import Strings.Byte.
From Stdlib Require Import DecimalString HexadecimalString.
From Stdlib Require Import Floats.SpecFloat.
From stdpp Require Import base option list strings gmap.

Local Open Scope Z_scope.

(** ** Python values *)

Module Py.

(** The exceptions the module can raise or let through. *)
Inductive exn :=
| RuntimeError (msg : string)
| TypeError (msg : string)
| KeyError (key : string)
| ZeroDivisionError
| OverflowError
| EOFError
| FileNotFoundError (path : string)
| NotADirectoryError (path : string)
| IsADirectoryError (path : string)
| ImageReadError (path : string)
| PickleError (msg : string)
| ExternalError (msg : string).

Inductive result (A : Type) :=
| Ok (a : A)
| Raise (e : exn).
Arguments Ok {A} a.
Arguments Raise {A} e.

(** A number is an [int] or a binary64 [float]. *)
Inductive number :=
| PyInt (z : Z)
| PyFloat (f : spec_float).

Definition binary64_div : spec_float -> spec_float -> spec_float :=
  SFdiv 53 1024.

Definition float_of_int_exact (z : Z) : spec_float :=
  match z with
  | Z0 => S754_zero false
  | Zpos p => S754_finite false p 0
  | Zneg p => S754_finite true p 0
  end.

(** [a / b] on two ints: the correctly rounded quotient, an
    [OverflowError] when it does not fit a float. *)
Definition int_truediv (a b : Z) : result spec_float :=
  if b =? 0 then Raise ZeroDivisionError
  else match binary64_div (float_of_int_exact a) (float_of_int_exact b) with
       | S754_infinity _ => Raise OverflowError
       | q => Ok q
       end.

(** [float.is_integer]. *)
Definition float_is_integer (f : spec_float) : bool :=
  match f with
  | S754_zero _ => true
  | S754_finite _ m e =>
      if 0 <=? e then true else Zpos m mod 2 ^ (- e) =? 0
  | _ => false
  end.

(** [k == f] for an int [k] and a float [f]: Python compares the exact
    values. *)
Definition int_eq_float (k : Z) (f : spec_float) : bool :=
  match f with
  | S754_zero _ => k =? 0
  | S754_finite s m e =>
      let sm := if s then Zneg m else Zpos m in
      if 0 <=? e then k =? sm * 2 ^ e else k * 2 ^ (- e) =? sm
  | _ => false
  end.

(** [k == n] for an int [k]. *)
Definition int_eq (k : Z) (n : number) : bool :=
  match n with
  | PyInt z => k =? z
  | PyFloat f => int_eq_float k f
  end.

Definition nl : string := String (ascii_of_nat 10) EmptyString.

(** [hex(n)] for a non-negative int. *)
Definition hex (n : nat) : string :=
  "0x" +:+ HexadecimalString.NilZero.string_of_uint (Nat.to_hex_uint n).

(** [str(n)] for a non-negative int. *)
Definition str (n : nat) : string :=
  DecimalString.NilZero.string_of_uint (Nat.to_uint n).

(** [chr(n)], for the code points below 256 (all the class codes are). *)
Definition chr (n : nat) : string := String (ascii_of_nat n) EmptyString.

(** [ord(s)] for a string of one character. *)
Definition ord (s : string) : option nat :=
  match s with
  | String a EmptyString => Some (nat_of_ascii a)
  | _ => None
  end.

(** [s[i:]] and [s[:j]] for non-negative [i], [j]. *)
Definition slice_from (i : nat) (s : string) : string :=
  String.substring i (String.length s - i) s.
Definition slice_to (j : nat) (s : string) : string :=
  String.substring 0 j s.

Definition slash : ascii := ascii_of_nat 47.

Definition is_slash (a : ascii) : bool := Ascii.eqb a slash.

Definition ends_with_slash (s : string) : bool :=
  match rev (list_ascii_of_string s) with
  | a :: _ => is_slash a
  | [] => false
  end.

(** [posixpath.join] of two components, and of a head with more. *)
Definition join2 (a b : string) : string :=
  match b with
  | String c _ =>
      if is_slash c then b
      else if (String.eqb a "" || ends_with_slash a)%bool then a +:+ b
      else a +:+ "/" +:+ b
  | EmptyString =>
      if (String.eqb a "" || ends_with_slash a)%bool then a else a +:+ "/"
  end.

Definition join (a : string) (ps : list string) : string :=
  fold_left join2 ps a.

Fixpoint drop_while {A} (f : A -> bool) (l : list A) : list A :=
  match l with
  | x :: l' => if f x then drop_while f l' else l
  | [] => []
  end.

(** [posixpath.dirname]: everything up to the last slash, trailing
    slashes stripped unless the head is made of slashes only. *)
Definition dirname (p : string) : string :=
  let head_rev := drop_while (fun a => negb (is_slash a))
                             (rev (list_ascii_of_string p)) in
  if forallb is_slash head_rev
  then string_of_list_ascii (rev head_rev)
  else string_of_list_ascii (rev (drop_while is_slash head_rev)).

(** [posixpath.basename]: everything after the last slash. *)
Fixpoint take_while {A} (f : A -> bool) (l : list A) : list A :=
  match l with
  | x :: l' => if f x then x :: take_while f l' else []
  | [] => []
  end.

Definition basename (p : string) : string :=
  string_of_list_ascii
    (rev (take_while (fun a => negb (is_slash a))
                     (rev (list_ascii_of_string p)))).

End Py.
Export Py.

(** ** State and exceptions *)

Module Mon.

(** A computation over a state [S] that returns an [A] or raises. *)
Definition M (S A : Type) : Type := S -> S * result A.

Definition ret {S A} (a : A) : M S A := fun s => (s, Ok a).

Definition raise {S A} (e : exn) : M S A := fun s => (s, Raise e).

Definition bind {S A B} (m : M S A) (k : A -> M S B) : M S B :=
  fun s =>
    match m s with
    | (s', Ok a) => k a s'
    | (s', Raise e) => (s', Raise e)
    end.

Definition get {S} : M S S := fun s => (s, Ok s).

Definition modify {S} (f : S -> S) : M S unit := fun s => (f s, Ok tt).

(** [for x in l: body(x)], with no [break]. *)
Fixpoint for_each {S A} (l : list A) (body : A -> M S unit) : M S unit :=
  match l with
  | [] => ret tt
  | x :: l' => bind (body x) (fun _ => for_each l' body)
  end.

End Mon.
Export Mon.

Declare Scope py_scope.
Delimit Scope py_scope with py.
Notation "x <- c ;; k" := (bind c (fun x => k))
  (at level 100, c at next level, right associativity) : py_scope.
Notation "c ;;; k" := (bind c (fun _ => k))
  (at level 100, right associativity) : py_scope.
Local Open Scope py_scope.

(** ** The world: file system, standard input, log of external calls *)

(** A decoded image: a pixel array with its shape. *)
Record ndarray := { shape : list nat; pixels : list Z }.

Inductive node :=
| Dir (entries : list string)
| File (content : list byte).

(** One entry per call that leaves the program, most recent first. *)
Inductive event :=
| EvExists (path : string)
| EvListdir (path : string)
| EvImread (path : string)
| EvRemove (path : string)
| EvOpenWrite (path : string)
| EvOpenRead (path : string)
| EvPrint (text : string)
| EvInput (prompt : string)
| EvCheckIntegrity (path md5 : string)
| EvDownload (url root filename md5 : string).

Record World := {
  w_fs : gmap string node;
  w_stdin : list string;
  w_log : list event
}.

Definition IO : Type -> Type := M World.

Definition set_fs (f : gmap string node -> gmap string node) (w : World) : World :=
  {| w_fs := f (w_fs w); w_stdin := w_stdin w; w_log := w_log w |}.

Definition log (ev : event) : IO unit :=
  modify (fun w => {| w_fs := w_fs w; w_stdin := w_stdin w; w_log := ev :: w_log w |}).

(** Paths are looked up as written; the empty path names nothing. *)
Definition fs_lookup (fs : gmap string node) (p : string) : option node :=
  if String.eqb p "" then None else fs !! p.

Definition fs_exists (fs : gmap string node) (p : string) : bool :=
  match fs_lookup fs p with Some _ => true | None => false end.

(** Creating or rewriting the file [p], and unlinking it; the listing of the
    parent directory follows. *)
Definition fs_write (p : string) (content : list byte) (fs : gmap string node)
  : gmap string node :=
  let fs' := <[p := File content]> fs in
  match fs_lookup fs (dirname p) with
  | Some (Dir es) =>
      if existsb (String.eqb (basename p)) es then fs'
      else <[dirname p := Dir (es ++ [basename p])]> fs'
  | _ => fs'
  end.

Definition fs_unlink (p : string) (fs : gmap string node) : gmap string node :=
  let fs' := delete p fs in
  match fs_lookup fs (dirname p) with
  | Some (Dir es) =>
      <[dirname p := Dir (List.filter (fun n => negb (String.eqb n (basename p))) es)]> fs'
  | _ => fs'
  end.

(** [os.path.exists] *)
Definition os_path_exists (p : string) : IO bool :=
  log (EvExists p) ;;;
  w <- get ;;
  ret (fs_exists (w_fs w) p).

(** [os.listdir]: the entries in the order the file system lists them. *)
Definition os_listdir (p : string) : IO (list string) :=
  log (EvListdir p) ;;;
  w <- get ;;
  match fs_lookup (w_fs w) p with
  | Some (Dir es) => ret es
  | Some (File _) => raise (NotADirectoryError p)
  | None => raise (FileNotFoundError p)
  end.

(** [os.remove] *)
Definition os_remove (p : string) : IO unit :=
  log (EvRemove p) ;;;
  w <- get ;;
  match fs_lookup (w_fs w) p with
  | Some (File _) => modify (set_fs (fs_unlink p))
  | Some (Dir _) => raise (IsADirectoryError p)
  | None => raise (FileNotFoundError p)
  end.

(** [open(p, 'wb')]: the file is created or truncated. *)
Definition open_wb (p : string) : IO unit :=
  log (EvOpenWrite p) ;;;
  w <- get ;;
  match fs_lookup (w_fs w) p with
  | Some (Dir _) => raise (IsADirectoryError p)
  | _ =>
      if String.eqb (dirname p) "" then modify (set_fs (fs_write p []))
      else match fs_lookup (w_fs w) (dirname p) with
           | Some (Dir _) => modify (set_fs (fs_write p []))
           | Some (File _) => raise (NotADirectoryError p)
           | None => raise (FileNotFoundError p)
           end
  end.

(** Writing the whole content through the handle [open_wb] returned. *)
Definition file_write (p : string) (content : list byte) : IO unit :=
  modify (set_fs (fs_write p content)).

(** [open(p, 'rb')] followed by reading everything. *)
Definition open_rb_read (p : string) : IO (list byte) :=
  log (EvOpenRead p) ;;;
  w <- get ;;
  match fs_lookup (w_fs w) p with
  | Some (File content) => ret content
  | Some (Dir _) => raise (IsADirectoryError p)
  | None => raise (FileNotFoundError p)
  end.

(** [print] *)
Definition print (text : string) : IO unit := log (EvPrint text).

(** [input]: the next line of standard input. *)
Definition input (prompt : string) : IO string :=
  log (EvInput prompt) ;;;
  w <- get ;;
  match w_stdin w with
  | line :: rest =>
      modify (fun w => {| w_fs := w_fs w; w_stdin := rest; w_log := w_log w |}) ;;;
      ret line
  | [] => raise EOFError
  end.

(** ** The dataset object *)

(** The attributes [__init__] sets on [self]. *)
Record NISTDB19Dataset := {
  data : list ndarray;
  targets : list string;
  data_type : option string;
  root_dir : string;
  train : bool;
  transform : option (ndarray -> ndarray);
  size_per_class : number
}.

(** What a caller can pass where a dataset is expected. *)
Inductive pyobj :=
| ObjDataset (d : NISTDB19Dataset)
| ObjOther (type_repr : string).

(** The imported collaborators. *)
Class Collaborators := {
  expanduser : string -> string;
  check_integrity : string -> string -> IO bool;
  download_and_extract_archive : string -> string -> string -> string -> IO unit;
  imread_decode : list byte -> option ndarray;
  compress_pickle_dump : NISTDB19Dataset -> result (list byte);
  compress_pickle_load : list byte -> result pyobj
}.

(** Methods run over the object and the world. *)
Definition Method : Type -> Type := M (NISTDB19Dataset * World).

Definition lift_io {A} (io : IO A) : Method A :=
  fun s =>
    match io (snd s) with
    | (w', r) => ((fst s, w'), r)
    end.

Definition get_self : Method NISTDB19Dataset :=
  fun s => (s, Ok (fst s)).

(** [self.data.append(image); self.targets.append(target)] *)
Definition append_sample (image : ndarray) (target : string) : Method unit :=
  modify (fun s =>
    let self := fst s in
    ({| data := data self ++ [image];
        targets := targets self ++ [target];
        data_type := data_type self;
        root_dir := root_dir self;
        train := train self;
        transform := transform self;
        size_per_class := size_per_class self |}, snd s)).

(** [self.size_per_class = size] *)
Definition set_size_per_class (size : number) (self : NISTDB19Dataset)
  : NISTDB19Dataset :=
  {| data := data self;
     targets := targets self;
     data_type := data_type self;
     root_dir := root_dir self;
     train := train self;
     transform := transform self;
     size_per_class := size |}.

(** ** Class attributes *)

Record folder_entry := { start : nat; len : nat }.

Definition url : string := "https://s3.amazonaws.com/nist-srd/SD19/by_class.zip".
Definition md5_hash : string := "79572b1694a8506f2b722c7be54130c4".
Definition arch_name : string := "by_class.zip".

Definition folder_map : list (string * folder_entry) :=
  [ ("digits", {| start := 0x30; len := 10 |});
    ("cap_letters", {| start := 0x41; len := 26 |});
    ("low_letters", {| start := 0x61; len := 26 |}) ].

(** [folder_map.get(key)]; an omitted [data_type] is the key [None]. *)
Fixpoint assoc_get {V} (m : list (string * V)) (k : string) : option V :=
  match m with
  | [] => None
  | (k', v) :: m' => if String.eqb k k' then Some v else assoc_get m' k
  end.

Definition folder_map_get (key : option string) : option folder_entry :=
  match key with
  | Some k => assoc_get folder_map k
  | None => None
  end.

(** ** Messages *)

Definition msg_data_type : string :=
  "Argument 'data_type' should be one of: " +:+ nl +:+ "  "
  +:+ "('digits', 'cap_letters', 'low_letters')".

Definition msg_no_path (root : string) : string :=
  "Path '" +:+ root +:+ "' doesn't exist".

Definition msg_not_dataset (type_repr : string) : string :=
  "Object " +:+ type_repr +:+ " is not inherit from NISTDB19Dataset".

Definition msg_no_folder (folder : string) : string :=
  "Folder " +:+ folder +:+ " does not exist".

Definition msg_wont_overwrite (filepath : string) : string :=
  nl +:+ "[WARNING]: Can't save to '" +:+ filepath +:+ "'." +:+ nl
  +:+ "File already exist. Add 'force_overwrite=False' for overwrite".

Definition msg_no_file (filepath : string) : string :=
  "Can't open " +:+ filepath +:+ ". File doesn't exist".

Definition msg_corrupted : string :=
  "Archive corrupted. Remove it and try again.".

Definition msg_not_found : string :=
  "Files not found. Use 'download=True' to download them.".

Definition msg_not_a_path : string :=
  "expected str, bytes or os.PathLike object, not NoneType".

Definition msg_invalid_dir : string :=
  "Image dir path and target must be valid.".

(** ** The methods *)

Section Methods.
Context `{Collaborators}.

(** The arguments of the constructor, with their defaults. *)
Record init_args := {
  arg_root_dir : option string;
  arg_train : bool;
  arg_download : bool;
  arg_data_type : option string;
  arg_size_limit : Z;
  arg_size_limit_per_class : bool;
  arg_transform : option (ndarray -> ndarray)
}.

Definition default_args : init_args :=
  {| arg_root_dir := None;
     arg_train := true;
     arg_download := false;
     arg_data_type := None;
     arg_size_limit := 1000;
     arg_size_limit_per_class := true;
     arg_transform := None |}.

Definition __len__ (self : NISTDB19Dataset) : nat := length (data self).

(** [save_to_file(dataset, filepath, force_overwrite)] *)
Definition save_to_file (dataset : pyobj) (filepath : string)
    (force_overwrite : bool) : IO unit :=
  match dataset with
  | ObjOther type_repr => raise (RuntimeError (msg_not_dataset type_repr))
  | ObjDataset d =>
      dir_exists <- os_path_exists (dirname filepath) ;;
      if negb dir_exists
      then raise (RuntimeError (msg_no_folder (dirname filepath)))
      else
        file_exists <- (if negb force_overwrite then os_path_exists filepath
                        else ret false) ;;
        if file_exists
        then print (msg_wont_overwrite filepath)
        else
          open_wb filepath ;;;
          match compress_pickle_dump d with
          | Ok content => file_write filepath content
          | Raise e => raise e
          end
  end.

(** [load_from_file(filepath)] *)
Definition load_from_file (filepath : string) : IO pyobj :=
  file_exists <- os_path_exists filepath ;;
  if negb file_exists
  then raise (RuntimeError (msg_no_file filepath))
  else
    content <- open_rb_read filepath ;;
    match compress_pickle_load content with
    | Ok obj => ret obj
    | Raise e => raise e
    end.

(** [self._download(need_to_download)] *)
Definition _download (need_to_download : bool) : Method unit :=
  self <- get_self ;;
  let arch_path := join (root_dir self) [arch_name] in
  let fetch :=
    lift_io (log (EvDownload url (root_dir self) arch_name md5_hash) ;;;
             download_and_extract_archive url (root_dir self) arch_name md5_hash) in
  arch_exists <- lift_io (os_path_exists arch_path) ;;
  if arch_exists
  then
    intact <- lift_io (log (EvCheckIntegrity arch_path md5_hash) ;;;
                       check_integrity arch_path md5_hash) ;;
    if intact
    then lift_io (print "Files already downloaded and verified")
    else
      ans <- lift_io (input "Archive corrupted. Delete and downloading it again [Y/n]? ") ;;
      if existsb (String.eqb ans) ["Y"; "y"; ""]
      then
        lift_io (os_remove arch_path) ;;;
        lift_io (os_remove (slice_to (String.length arch_path - 4) arch_path)) ;;;
        fetch
      else raise (RuntimeError msg_corrupted)
  else if negb need_to_download
  then raise (RuntimeError msg_not_found)
  else fetch.

(** [io.imread(img_path)] *)
Definition io_imread (p : string) : IO ndarray :=
  log (EvImread p) ;;;
  w <- get ;;
  match fs_lookup (w_fs w) p with
  | Some (File content) =>
      match imread_decode content with
      | Some image => ret image
      | None => raise (ImageReadError p)
      end
  | Some (Dir _) => raise (IsADirectoryError p)
  | None => raise (FileNotFoundError p)
  end.

(** The [for img_name in os.listdir(img_dir_path)] loop of
    [_add_samples_from_dir], with its [return 1]; falling off the end is
    [return 0].  [newly_added] is the local counter. *)
Fixpoint add_samples_loop (img_dir_path target : string) (names : list string)
    (newly_added : Z) : Method Z :=
  match names with
  | [] => ret 0
  | img_name :: names' =>
      let img_path := join img_dir_path [img_name] in
      image <- lift_io (io_imread img_path) ;;
      append_sample image target ;;;
      let newly_added := newly_added + 1 in
      self <- get_self ;;
      if int_eq newly_added (size_per_class self)
      then ret 1
      else add_samples_loop img_dir_path target names' newly_added
  end.

(** [self._add_samples_from_dir(img_dir_path, target, newly_added)] *)
Definition _add_samples_from_dir (img_dir_path target : option string)
    (newly_added : Z) : Method Z :=
  match img_dir_path, target with
  | Some img_dir_path, Some target =>
      names <- lift_io (os_listdir img_dir_path) ;;
      add_samples_loop img_dir_path target names newly_added
  | _, _ => raise (RuntimeError msg_invalid_dir)
  end.

(** The [for hsf_idx in range(0, 8)] loop of [_process], with its [break].
    The caller's [newly_added] is an int, passed by value: the callee's
    increments never reach it. *)
Fixpoint hsf_loop (class_idx : nat) (class_folder_name : string)
    (hsf_idxs : list nat) (newly_added : Z) : Method unit :=
  match hsf_idxs with
  | [] => ret tt
  | hsf_idx :: hsf_idxs' =>
      let hsf_name := "hsf_" +:+ str hsf_idx in
      self <- get_self ;;
      let path_to_img_dir :=
        join (root_dir self) ["by_class"; class_folder_name; hsf_name] in
      r <- _add_samples_from_dir (Some path_to_img_dir) (Some (chr class_idx))
             newly_added ;;
      if r =? 1 then ret tt
      else hsf_loop class_idx class_folder_name hsf_idxs' newly_added
  end.

(** The body of the [for class_idx in range(...)] loop of [_process]. *)
Definition process_class (class_idx : nat) : Method unit :=
  let class_folder_name := slice_from 2 (hex class_idx) in
  self <- get_self ;;
  if train self
  then
    let newly_added := 0 in
    hsf_loop class_idx class_folder_name (seq 0 8) newly_added
  else
    let path_to_img_dir :=
      join (root_dir self)
           ["by_class"; class_folder_name; "train_" +:+ class_folder_name] in
    _add_samples_from_dir (Some path_to_img_dir) (Some (chr class_idx)) 0 ;;;
    ret tt.

(** [self._process(download, data_type)] *)
Definition _process (download : bool) (data_type : option string) : Method unit :=
  _download download ;;;
  match folder_map_get data_type with
  | None => raise (KeyError "data_type")
  | Some entry => for_each (seq (start entry) (len entry)) process_class
  end.

(** How [__init__] ends: with the object built, or with an exception and
    the object as far as its attributes were all set. *)
Inductive init_outcome :=
| Built (self : NISTDB19Dataset)
| Failed (partial : option NISTDB19Dataset) (e : exn).

(** [NISTDB19Dataset.__init__] *)
Definition __init__ (a : init_args) (w : World) : World * init_outcome :=
  match folder_map_get (arg_data_type a) with
  | None => (w, Failed None (RuntimeError msg_data_type))
  | Some entry =>
      match arg_root_dir a with
      | None => (w, Failed None (TypeError msg_not_a_path))
      | Some root =>
          let self :=
            {| data := [];
               targets := [];
               data_type := arg_data_type a;
               root_dir := expanduser root;
               train := arg_train a;
               transform := arg_transform a;
               size_per_class := PyInt (arg_size_limit a) |} in
          let divided :=
            if negb (arg_size_limit_per_class a)
            then match int_truediv (arg_size_limit a) (Z.of_nat (len entry)) with
                 | Ok q => Ok (set_size_per_class (PyFloat q) self)
                 | Raise e => Raise e
                 end
            else Ok self in
          match divided with
          | Raise e => (w, Failed (Some self) e)
          | Ok self =>
              match os_path_exists (root_dir self) w with
              | (w1, Ok true) =>
                  match _process (arg_download a) (arg_data_type a) (self, w1) with
                  | ((self', w2), Ok _) => (w2, Built self')
                  | ((self', w2), Raise e) => (w2, Failed (Some self') e)
                  end
              | (w1, Ok false) =>
                  (w1, Failed (Some self) (RuntimeError (msg_no_path (root_dir self))))
              | (w1, Raise e) => (w1, Failed (Some self) e)
              end
          end
      end
  end.

(** The call [NISTDB19Dataset(...)]: the object, or the exception. *)
Definition construct (a : init_args) : IO NISTDB19Dataset :=
  fun w =>
    match __init__ a w with
    | (w', Built self) => (w', Ok self)
    | (w', Failed _ e) => (w', Raise e)
    end.

End Methods.

(** ** A concrete instance: collaborators and file trees to run the code on *)

Module Demo.

#[export] Instance ndarray_eq_dec : EqDecision ndarray.
Proof. solve_decision. Defined.

#[export] Instance spec_float_eq_dec : EqDecision spec_float.
Proof. solve_decision. Defined.

#[export] Instance number_eq_dec : EqDecision number.
Proof. solve_decision. Defined.

(** The image decoder: one pixel per byte. *)
Definition decode (content : list byte) : option ndarray :=
  Some {| shape := [length content];
          pixels := map (fun b => Z.of_N (Byte.to_N b)) content |}.

(** A snapshot codec that knows one dataset, [known], whose file content is
    the single byte [x01]; any other object is refused. *)
Definition same_snapshot (known d : NISTDB19Dataset) : bool :=
  match transform d, transform known with
  | None, None =>
      bool_decide
        ((data d, targets d, data_type d, root_dir d, train d, size_per_class d)
         = (data known, targets known, data_type known, root_dir known,
            train known, size_per_class known))
  | _, _ => false
  end.

Definition dump_known (known d : NISTDB19Dataset) : result (list byte) :=
  if same_snapshot known d then Ok [x01]
  else Raise (PickleError "unknown object").

Definition load_known (known : NISTDB19Dataset) (content : list byte) : result pyobj :=
  match content with
  | [x01] => Ok (ObjDataset known)
  | _ => Raise (PickleError "invalid load key")
  end.

(** The archive is always intact, nothing is downloaded. *)
Definition collab (known : NISTDB19Dataset) : Collaborators :=
  {| expanduser := fun p => p;
     check_integrity := fun _ _ => ret true;
     download_and_extract_archive := fun _ _ _ _ => ret tt;
     imread_decode := decode;
     compress_pickle_dump := dump_known known;
     compress_pickle_load := load_known known |}.

Definition empty_dataset : NISTDB19Dataset :=
  {| data := []; targets := []; data_type := Some "digits"; root_dir := "/data";
     train := true; transform := None; size_per_class := PyInt 1000 |}.

Definition demo : Collaborators := collab empty_dataset.

(** A directory with the named files in it. *)
Definition put_dir (dir : string) (names : list string) (fs : gmap string node)
  : gmap string node :=
  <[dir := Dir names]>
    (foldr (fun n acc => <[join dir [n] := File (list_byte_of_string n)]> acc)
           fs names).

(** [root] with the verified archive and, under [by_class], for each class
    the sub-directories [subdirs] with the files [files] gives them. *)
Definition tree (root : string) (classes : list nat) (subdirs : string -> list string)
    (files : nat -> string -> list string) : gmap string node :=
  foldr (fun c acc =>
           let folder := slice_from 2 (hex c) in
           foldr (fun sub acc' =>
                    put_dir (join root ["by_class"; folder; sub]) (files c sub) acc')
                 acc (subdirs folder))
        (<[root := Dir ["by_class.zip"; "by_class"]]>
           (<[join root [arch_name] := File []]> ∅))
        classes.

Definition hsf_dirs (folder : string) : list string :=
  map (fun i => "hsf_" +:+ str i) (seq 0 8).

Definition test_dirs (folder : string) : list string := ["train_" +:+ folder].

Definition world_of (fs : gmap string node) : World :=
  {| w_fs := fs; w_stdin := []; w_log := [] |}.

(** Training tree: class [0] has one image in [hsf_0] and two in [hsf_1];
    every other partition is empty. *)
Definition two_partitions (c : nat) (sub : string) : list string :=
  if (c =? 0x30)%nat then
    if String.eqb sub "hsf_0" then ["a.png"]
    else if String.eqb sub "hsf_1" then ["b.png"; "c.png"]
    else []
  else [].

Definition train_world : World :=
  world_of (tree "/data" (seq 0x30 10) hsf_dirs two_partitions).

Definition train_args (limit : Z) : init_args :=
  {| arg_root_dir := Some "/data";
     arg_train := true;
     arg_download := false;
     arg_data_type := Some "digits";
     arg_size_limit := limit;
     arg_size_limit_per_class := true;
     arg_transform := None |}.

(** Test tree: [train_30] holds two images, the other classes none. *)
Definition two_test_files (c : nat) (sub : string) : list string :=
  if (c =? 0x30)%nat then ["a.png"; "b.png"] else [].

Definition test_world : World :=
  world_of (tree "/data" (seq 0x30 10) test_dirs two_test_files).

Definition test_args (limit : Z) : init_args :=
  {| arg_root_dir := Some "/data";
     arg_train := false;
     arg_download := false;
     arg_data_type := Some "digits";
     arg_size_limit := limit;
     arg_size_limit_per_class := true;
     arg_transform := None |}.

(** The limit shared between the ten digit classes. *)
Definition shared_args (limit : Z) : init_args :=
  {| arg_root_dir := Some "/data";
     arg_train := true;
     arg_download := false;
     arg_data_type := Some "digits";
     arg_size_limit := limit;
     arg_size_limit_per_class := false;
     arg_transform := None |}.


(** The runs the statements below look at. *)
Definition train_run : World * result NISTDB19Dataset :=
  @construct demo (train_args 2) train_world.

Definition test_run : World * result NISTDB19Dataset :=
  @construct demo (test_args 1) test_world.

Definition shared_run : World * result NISTDB19Dataset :=
  @construct demo (shared_args 5) train_world.

Definition built (run : World * result NISTDB19Dataset) : NISTDB19Dataset :=
  match snd run with
  | Ok self => self
  | Raise _ => empty_dataset
  end.

(** An output directory, empty, and a working directory that already holds
    the snapshot [snapshot.lzma], named without a directory part. *)
Definition out_world : World :=
  world_of (<["/out" := Dir []]> ∅).

Definition cwd_world : World :=
  world_of (<["snapshot.lzma" := File [x01]]> ∅).

End Demo.

(** ** Vocabulary of the statements *)

(** The two parallel sequences have the same length. *)
Definition balanced (self : NISTDB19Dataset) : Prop :=
  length (data self) = length (targets self).

(** Everything but the two sequences is the same. *)
Definition same_config (self self' : NISTDB19Dataset) : Prop :=
  data_type self' = data_type self /\ root_dir self' = root_dir self /\
  train self' = train self /\ transform self' = transform self /\
  size_per_class self' = size_per_class self.

(** The file system and the standard input are the same; only the log of
    calls may have grown. *)
Definition same_disk (w w' : World) : Prop :=
  w_fs w' = w_fs w /\ w_stdin w' = w_stdin w.

(** What [os.listdir] lists at [p]: nothing when [p] is not a directory. *)
Definition listing (fs : gmap string node) (p : string) : list string :=
  match fs_lookup fs p with
  | Some (Dir es) => es
  | _ => []
  end.

(** The number of samples labelled [t]. *)
Definition count_label (t : string) (labels : list string) : nat :=
  length (List.filter (String.eqb t) labels).

(** [self'] is [self] with the images [imgs] appended, each labelled [t]. *)
Definition appended (t : string) (imgs : list ndarray)
    (self self' : NISTDB19Dataset) : Prop :=
  same_config self self' /\
  data self' = data self ++ imgs /\
  targets self' = targets self ++ replicate (length imgs) t.

(** [self'] is [self] with as many images as labels appended, every label
    satisfying [P]. *)
Definition grown (P : string -> Prop) (self self' : NISTDB19Dataset) : Prop :=
  same_config self self' /\
  exists imgs labels,
    data self' = data self ++ imgs /\
    targets self' = targets self ++ labels /\
    length imgs = length labels /\
    Forall P labels.

(** The images decoded from the files [names] of the directory [dir]. *)
Definition decoded `{Collaborators} (fs : gmap string node) (dir : string)
    (names : list string) (imgs : list ndarray) : Prop :=
  Forall2 (fun n img =>
             match fs_lookup fs (join dir [n]) with
             | Some (File content) => imread_decode content = Some img
             | _ => False
             end) names imgs.

(** [t] is the character of a class code of the range [entry]. *)
Definition label_in_range (entry : folder_entry) (t : string) : Prop :=
  exists c, (start entry <= c < start entry + len entry)%nat /\ t = chr c.

(** The object as [__init__] has it before the scan: no sample yet. *)
Definition fresh_object `{Collaborators} (a : init_args) (root : string)
    (size : number) : NISTDB19Dataset :=
  {| data := [];
     targets := [];
     data_type := arg_data_type a;
     root_dir := expanduser root;
     train := arg_train a;
     transform := arg_transform a;
     size_per_class := size |}.

(** The cap can be met by no counter value. *)
Definition unreachable (cap : number) : Prop :=
  forall k : Z, int_eq k cap = false.

(** The two kinds of [RuntimeError] the constructor raises itself. *)
Definition is_configuration_error (e : exn) : Prop :=
  e = RuntimeError msg_data_type.


(** The image [io.imread] decodes at [p], when there is one. *)
Definition read_image `{Collaborators} (fs : gmap string node) (p : string)
  : option ndarray :=
  match fs_lookup fs p with
  | Some (File content) => imread_decode content
  | _ => None
  end.

(** The directories [_process] scans for a class. *)
Definition hsf_path (root : string) (class_idx hsf_idx : nat) : string :=
  join root ["by_class"; slice_from 2 (hex class_idx); "hsf_" +:+ str hsf_idx].

Definition test_path (root : string) (class_idx : nat) : string :=
  join root ["by_class"; slice_from 2 (hex class_idx);
             "train_" +:+ slice_from 2 (hex class_idx)].

(** How many files a scan that starts with its counter at 0 takes from a
    directory of [n] files under the integer cap [limit]: it stops at the
    cap when the cap is one of 1..n, and takes everything otherwise. *)
Definition scan_count (limit : Z) (n : nat) : nat :=
  if ((1 <=? limit) && (limit <=? Z.of_nat n))%bool then Z.to_nat limit else n.

(** How many files the file system holds for a class: in its eight writer
    partitions, or in its test folder. *)
Definition class_files (fs : gmap string node) (root : string) (train : bool)
    (class_idx : nat) : nat :=
  if train
  then sum_list (map (fun i => length (listing fs (hsf_path root class_idx i)))
                     (seq 0 8))
  else length (listing fs (test_path root class_idx)).

(** ** Indexing *)

(** What [__getitem__] ends with: the pair, an [IndexError] of one of the
    two lists, or an exception of the image library passed on. *)
Inductive item_result :=
| Item (img : ndarray) (target : string)
| IndexError (msg : string)
| Propagated (e : exn).

(** [l[idx]] on a Python list: a negative index counts from the end; [None]
    stands for the [IndexError]. *)
Definition py_index {A} (l : list A) (idx : Z) : option A :=
  let n := Z.of_nat (length l) in
  let i := if idx <? 0 then idx + n else idx in
  if ((0 <=? i) && (i <? n))%bool then l !! Z.to_nat i else None.

Section GetItem.

(** [PIL.Image.fromarray]; an image is kept as its pixel array. *)
Variable fromarray : ndarray -> result ndarray.

(** [self.__getitem__(idx)] *)
Definition __getitem__ (self : NISTDB19Dataset) (idx : Z) : item_result :=
  match py_index (data self) idx with
  | None => IndexError "list index out of range"
  | Some arr =>
      match fromarray arr with
      | Raise e => Propagated e
      | Ok img =>
          let img := match transform self with
                     | Some f => f img
                     | None => img
                     end in
          match py_index (targets self) idx with
          | None => IndexError "list index out of range"
          | Some target => Item img target
          end
      end
  end.

End GetItem.

(** ** More vocabulary *)

(** The integer a float equals, when it equals one. *)
Definition float_int_value (f : spec_float) : option Z :=
  match f with
  | S754_zero _ => Some 0
  | S754_finite s m e =>
      let sm := if s then Zneg m else Zpos m in
      if 0 <=? e then Some (sm * 2 ^ e)
      else if Zpos m mod 2 ^ (- e) =? 0 then Some (sm / 2 ^ (- e))
      else None
  | _ => None
  end.

(** The one counter value that meets the cap, when there is one. *)
Definition cap_int_value (cap : number) : option Z :=
  match cap with
  | PyInt z => Some z
  | PyFloat f => float_int_value f
  end.

(** How many files the partition loop takes when the counter value [limit]
    meets the cap and the partitions hold [ns] files: every partition is
    scanned with the counter back at 0, and the loop ends with the first
    partition that reaches the cap. *)
Fixpoint train_count (limit : Z) (ns : list nat) : nat :=
  match ns with
  | [] => 0
  | n :: ns' =>
      if ((1 <=? limit) && (limit <=? Z.of_nat n))%bool then Z.to_nat limit
      else n + train_count limit ns'
  end.

(** How many samples a class ends with when [limit] meets the cap. *)
Definition class_count (fs : gmap string node) (root : string) (train : bool)
    (limit : Z) (class_idx : nat) : nat :=
  if train
  then train_count limit
         (map (fun i => length (listing fs (hsf_path root class_idx i))) (seq 0 8))
  else scan_count limit (length (listing fs (test_path root class_idx))).

(** How many samples class [c] gets in a walk over the file system [fs]
    by an object configured as [self]. *)
Definition walk_count (fs : gmap string node) (self : NISTDB19Dataset)
    (c : nat) : nat :=
  match cap_int_value (size_per_class self) with
  | Some limit => class_count fs (root_dir self) (train self) limit c
  | None => class_files fs (root_dir self) (train self) c
  end.

(** The archive and what [_download] takes for its extracted sibling. *)
Definition arch_path_of (root : string) : string := join root [arch_name].

Definition sibling_of (root : string) : string :=
  slice_to (String.length (arch_path_of root) - 4) (arch_path_of root).

(** One more event at the head of the log. *)
Definition logged (ev : event) (w : World) : World :=
  {| w_fs := w_fs w; w_stdin := w_stdin w; w_log := ev :: w_log w |}.

(** The constructor arguments with [download] set. *)
Definition with_download (download : bool) (a : init_args) : init_args :=
  {| arg_root_dir := arg_root_dir a;
     arg_train := arg_train a;
     arg_download := download;
     arg_data_type := arg_data_type a;
     arg_size_limit := arg_size_limit a;
     arg_size_limit_per_class := arg_size_limit_per_class a;
     arg_transform := arg_transform a |}.

(** The question [_download] asks about a corrupted archive. *)
Definition prompt_corrupted : string :=
  "Archive corrupted. Delete and downloading it again [Y/n]? ".


(** ** More worlds to run the code on *)

Module Runs.

(** An image library that takes a pixel array as it is. *)
Definition fromarray (arr : ndarray) : result ndarray := Ok arr.

(** Collaborators whose integrity check fails on every archive. *)
Definition corrupt : Collaborators :=
  {| expanduser := fun p => p;
     check_integrity := fun _ _ => ret false;
     download_and_extract_archive := fun _ _ _ _ => ret tt;
     imread_decode := Demo.decode;
     compress_pickle_dump := Demo.dump_known Demo.empty_dataset;
     compress_pickle_load := Demo.load_known Demo.empty_dataset |}.

(** The training tree walked with a limit of 0. *)
Definition zero_run : World * result NISTDB19Dataset :=
  @construct Demo.demo (Demo.train_args 0) Demo.train_world.

(** The range of the digits, and the training run of [Demo] with its
    limit of 2: the dataset it builds and the world it leaves. *)
Definition digits : folder_entry := {| start := 0x30; len := 10 |}.

Definition train_self : NISTDB19Dataset := Demo.built Demo.train_run.

Definition train_after : World := fst Demo.train_run.

Definition zero_self : NISTDB19Dataset := Demo.built zero_run.

Definition zero_after : World := fst zero_run.

(** A root without the archive. *)
Definition no_archive_world : World :=
  Demo.world_of (<["/data" := Dir []]> ∅).

(** A root with the archive and its extracted sibling, and the answer
    the operator is going to type. *)
Definition corrupted_world (sibling : node) (answer : string) : World :=
  {| w_fs := <["/data" := Dir ["by_class.zip"; "by_class"]]>
               (<["/data/by_class.zip" := File [x00]]>
                  (<["/data/by_class" := sibling]> ∅));
     w_stdin := [answer];
     w_log := [] |}.

(** What the failing integrity check makes of [corrupted_world]. *)
Definition checked_world (sibling : node) (answer : string) : World :=
  logged (EvCheckIntegrity "/data/by_class.zip" md5_hash)
    (logged (EvExists "/data/by_class.zip") (corrupted_world sibling answer)).

(** An output directory that already holds a snapshot. *)
Definition saved_world : World :=
  Demo.world_of (<["/out" := Dir ["ds.lzma"]]>
                   (<["/out/ds.lzma" := File [x02]]> ∅)).


End Runs.

(** ** A serializer to run the snapshots through *)

Module Pickler.

(** What of a dataset can be written down: every attribute but the
    transform, a function. *)
Definition float_fields : Type := bool + bool + unit + bool * positive * Z.

Definition fields : Type :=
  bool * option string * string * (Z + float_fields) * list string
  * list (list nat * list Z).

Definition float_to_fields (f : spec_float) : float_fields :=
  match f with
  | S754_zero s => inl (inl (inl s))
  | S754_infinity s => inl (inl (inr s))
  | S754_nan => inl (inr tt)
  | S754_finite s m e => inr (s, m, e)
  end.

Definition float_of_fields (x : float_fields) : spec_float :=
  match x with
  | inl (inl (inl s)) => S754_zero s
  | inl (inl (inr s)) => S754_infinity s
  | inl (inr _) => S754_nan
  | inr (s, m, e) => S754_finite s m e
  end.

Definition fields_of (d : NISTDB19Dataset) : fields :=
  (train d, data_type d, root_dir d,
   match size_per_class d with
   | PyInt z => inl z
   | PyFloat f => inr (float_to_fields f)
   end,
   targets d, map (fun img => (shape img, pixels img)) (data d)).

Definition dataset_of (x : fields) : NISTDB19Dataset :=
  match x with
  | (tr, dt, root, size, labels, images) =>
      {| data := map (fun i => {| shape := fst i; pixels := snd i |}) images;
         targets := labels;
         data_type := dt;
         root_dir := root;
         train := tr;
         transform := None;
         size_per_class := match size with
                           | inl z => PyInt z
                           | inr f => PyFloat (float_of_fields f)
                           end |}
  end.

(** A number as bytes: one byte per binary digit, lowest first. *)
Fixpoint pos_to_bytes (p : positive) : list byte :=
  match p with
  | xH => []
  | xO p' => x00 :: pos_to_bytes p'
  | xI p' => x01 :: pos_to_bytes p'
  end.

Fixpoint bytes_to_pos (content : list byte) : option positive :=
  match content with
  | [] => Some xH
  | x00 :: content' => xO <$> bytes_to_pos content'
  | x01 :: content' => xI <$> bytes_to_pos content'
  | _ => None
  end.

(** The serializer: the attributes as one number, the number as bytes; a
    dataset that carries a function is refused, as pickle refuses a
    lambda. *)
Definition dump (d : NISTDB19Dataset) : result (list byte) :=
  match transform d with
  | Some _ => Raise (PickleError "cannot pickle a function")
  | None => Ok (pos_to_bytes (encode (fields_of d)))
  end.

Definition load (content : list byte) : result pyobj :=
  match bytes_to_pos content ≫= decode with
  | Some x => Ok (ObjDataset (dataset_of x))
  | None => Raise (PickleError "invalid snapshot")
  end.

(** The collaborators of [Demo] with this serializer. *)
Definition collab : Collaborators :=
  {| expanduser := fun p => p;
     check_integrity := fun _ _ => ret true;
     download_and_extract_archive := fun _ _ _ _ => ret tt;
     imread_decode := Demo.decode;
     compress_pickle_dump := dump;
     compress_pickle_load := load |}.


(** The training arguments of [Demo], limit 2, with [lambda img: img] for
    transform. *)
Definition transform_args : init_args :=
  {| arg_root_dir := Some "/data";
     arg_train := true;
     arg_download := false;
     arg_data_type := Some "digits";
     arg_size_limit := 2;
     arg_size_limit_per_class := true;
     arg_transform := Some (fun img : ndarray => img) |}.

(** The training tree walked without a transform and with one, and the
    bytes the first dataset is written as. *)
Definition plain_run : World * result NISTDB19Dataset :=
  @construct collab (Demo.train_args 2) Demo.train_world.

Definition plain_self : NISTDB19Dataset := Demo.built plain_run.

Definition plain_after : World := fst plain_run.

Definition plain_bytes : list byte :=
  match dump plain_self with Ok content => content | Raise _ => [] end.

Definition transform_run : World * result NISTDB19Dataset :=
  @construct collab transform_args Demo.train_world.

Definition transform_self : NISTDB19Dataset := Demo.built transform_run.

Definition transform_after : World := fst transform_run.

End Pickler.

(** * Properties *)

Section Properties.
Context `{Collaborators}.

(** ** The world primitives *)

Lemma log_spec ev w : log ev w =
  ({| w_fs := w_fs w; w_stdin := w_stdin w; w_log := ev :: w_log w |}, Ok tt).
Proof. reflexivity. Qed.

Lemma same_disk_refl w : same_disk w w.
Proof. split; reflexivity. Qed.

Lemma same_disk_trans w1 w2 w3 :
  same_disk w1 w2 -> same_disk w2 w3 -> same_disk w1 w3.
Proof. intros [? ?] [? ?]; split; congruence. Qed.

Lemma same_config_refl self : same_config self self.
Proof. repeat split. Qed.

Lemma same_config_trans s1 s2 s3 :
  same_config s1 s2 -> same_config s2 s3 -> same_config s1 s3.
Proof. unfold same_config; intuition congruence. Qed.

Lemma os_path_exists_spec p w w' r :
  os_path_exists p w = (w', r) ->
  same_disk w w' /\ w_log w' = EvExists p :: w_log w /\
  r = Ok (fs_exists (w_fs w) p).
Proof.
  unfold os_path_exists, bind, log, modify, get, ret; simpl.
  intros [= <- <-]; repeat split.
Qed.

Lemma os_listdir_spec p w w' r :
  os_listdir p w = (w', r) ->
  same_disk w w' /\
  match r with
  | Ok es => fs_lookup (w_fs w) p = Some (Dir es)
  | Raise _ => listing (w_fs w) p = []
  end.
Proof.
  unfold os_listdir, listing, bind, log, modify, get, ret, raise; simpl.
  destruct (fs_lookup (w_fs w) p) as [[es|c]|];
    intros [= <- <-]; repeat split.
Qed.

Lemma io_imread_spec p w w' r :
  io_imread p w = (w', r) ->
  same_disk w w' /\
  match r with
  | Ok image => read_image (w_fs w) p = Some image
  | Raise _ => read_image (w_fs w) p = None
  end.
Proof.
  unfold io_imread, read_image, bind, log, modify, get, ret, raise; simpl.
  destruct (fs_lookup (w_fs w) p) as [[es|c]|]; [| destruct (imread_decode c) |];
    intros [= <- <-]; repeat split.
Qed.

(** ** Scanning one directory *)

Lemma append_sample_spec image t self w :
  append_sample image t (self, w) =
  (({| data := data self ++ [image];
       targets := targets self ++ [t];
       data_type := data_type self;
       root_dir := root_dir self;
       train := train self;
       transform := transform self;
       size_per_class := size_per_class self |}, w), Ok tt).
Proof. reflexivity. Qed.

Lemma add_samples_loop_spec dir t names : forall k self w self' w' r,
  add_samples_loop dir t names k (self, w) = ((self', w'), r) ->
  same_disk w w' /\ same_config self self' /\
  exists imgs,
    data self' = data self ++ imgs /\
    targets self' = targets self ++ replicate (length imgs) t /\
    Forall2 (fun n img => read_image (w_fs w) (join dir [n]) = Some img)
            (take (length imgs) names) imgs /\
    (forall j, (0 < j < length imgs)%nat ->
               int_eq (k + Z.of_nat j) (size_per_class self) = false) /\
    match r with
    | Ok v =>
        (v = 1 /\ (0 < length imgs <= length names)%nat /\
         int_eq (k + Z.of_nat (length imgs)) (size_per_class self) = true) \/
        (v = 0 /\ length imgs = length names /\
         forall j, (0 < j <= length names)%nat ->
                   int_eq (k + Z.of_nat j) (size_per_class self) = false)
    | Raise _ => (length imgs < length names)%nat
    end.
Proof.
  induction names as [|n names IH]; intros k self w self' w' r Hrun.
  - simpl in Hrun. injection Hrun as <- <- <-.
    split; [apply same_disk_refl|]. split; [apply same_config_refl|].
    exists []. rewrite !app_nil_r. simpl.
    split; [reflexivity|]. split; [reflexivity|].
    split; [constructor|]. split; [intros; lia|].
    right. repeat split. intros; lia.
  - simpl in Hrun. unfold bind at 1 in Hrun. unfold lift_io in Hrun. simpl in Hrun.
    destruct (io_imread (join2 dir n) w) as [w1 [image|e]] eqn:Hread.
    + apply io_imread_spec in Hread as [Hdisk Himg].
      unfold bind at 1 in Hrun. rewrite append_sample_spec in Hrun.
      unfold bind at 1 in Hrun. unfold get_self in Hrun. simpl in Hrun.
      destruct (int_eq (k + 1) (size_per_class self)) eqn:Hcap.
      * injection Hrun as <- <- <-.
        split; [exact Hdisk|]. split; [repeat split|].
        exists [image]. simpl.
        split; [reflexivity|]. split; [reflexivity|].
        split; [constructor; [exact Himg | constructor]|].
        split; [intros; lia|].
        left. repeat split; try lia. exact Hcap.
      * apply IH in Hrun as (Hdisk' & Hcfg & imgs & Hdata & Htargets & Himgs & Hbelow & Hres).
        simpl in *.
        split; [eapply same_disk_trans; eauto|].
        split; [exact Hcfg|].
        exists (image :: imgs). simpl.
        rewrite Hdata, Htargets, <- !app_assoc. simpl.
        split; [reflexivity|]. split; [reflexivity|].
        split.
        { constructor; [exact Himg|].
          destruct Hdisk as [Hfs _]. rewrite <- Hfs. exact Himgs. }
        split.
        { intros j Hj. destruct j as [|[|j]]; [lia| exact Hcap |].
          specialize (Hbelow (S j) ltac:(lia)).
          rewrite <- Hbelow. f_equal. lia. }
        destruct r as [v|e]; [|lia].
        destruct Hres as [(-> & Hlen & Hhit) | (-> & Hlen & Hmiss)].
        -- left. repeat split; try lia. rewrite <- Hhit. f_equal. lia.
        -- right. repeat split; try lia.
           intros j Hj. destruct j as [|[|j]]; [lia| exact Hcap |].
           specialize (Hmiss (S j) ltac:(lia)).
           rewrite <- Hmiss. f_equal. lia.
    + apply io_imread_spec in Hread as [Hdisk _].
      injection Hrun as <- <- <-.
      split; [exact Hdisk|]. split; [apply same_config_refl|].
      exists []. rewrite !app_nil_r. simpl.
      split; [reflexivity|]. split; [reflexivity|].
      split; [constructor|]. split; [intros; lia|]. lia.
Qed.


Lemma read_image_decoded fs dir names imgs :
  Forall2 (fun n img => read_image fs (join dir [n]) = Some img) names imgs ->
  decoded fs dir names imgs.
Proof.
  unfold decoded, read_image. induction 1 as [|n img names imgs Hn _ IH];
    constructor; [|exact IH].
  destruct (fs_lookup fs (join dir [n])) as [[es|c]|]; congruence.
Qed.

(** What one call of [_add_samples_from_dir] on a directory does, whatever
    the counter it is given. *)
Lemma add_samples_from_dir_spec dir t k self w self' w' r :
  _add_samples_from_dir (Some dir) (Some t) k (self, w) = ((self', w'), r) ->
  same_disk w w' /\
  exists imgs,
    appended t imgs self self' /\
    decoded (w_fs w) dir (take (length imgs) (listing (w_fs w) dir)) imgs /\
    (forall j, (0 < j < length imgs)%nat ->
               int_eq (k + Z.of_nat j) (size_per_class self) = false) /\
    match r with
    | Ok v =>
        (v = 1 /\ (0 < length imgs <= length (listing (w_fs w) dir))%nat /\
         int_eq (k + Z.of_nat (length imgs)) (size_per_class self) = true) \/
        (v = 0 /\ length imgs = length (listing (w_fs w) dir) /\
         forall j, (0 < j <= length imgs)%nat ->
                   int_eq (k + Z.of_nat j) (size_per_class self) = false)
    | Raise _ => True
    end.
Proof.
  unfold _add_samples_from_dir. unfold bind at 1. unfold lift_io. simpl.
  destruct (os_listdir dir w) as [w1 [names|e]] eqn:Hls; intros Hrun.
  - apply os_listdir_spec in Hls as [Hdisk Hnames].
    apply add_samples_loop_spec in Hrun
      as (Hdisk' & Hcfg & imgs & Hdata & Htargets & Himgs & Hbelow & Hres).
    assert (Hlisting : listing (w_fs w) dir = names)
      by (unfold listing; rewrite Hnames; reflexivity).
    split; [eapply same_disk_trans; eauto|].
    exists imgs. rewrite Hlisting.
    split; [unfold appended; auto|].
    split.
    { apply read_image_decoded. destruct Hdisk as [Hfs _].
      rewrite <- Hfs. exact Himgs. }
    split; [exact Hbelow|].
    destruct r as [v|e]; [|exact I].
    destruct Hres as [(-> & Hlen & Hhit) | (-> & Hlen & Hmiss)].
    + left. auto.
    + right. rewrite Hlen. auto.
  - apply os_listdir_spec in Hls as [Hdisk _].
    injection Hrun as <- <- <-.
    split; [exact Hdisk|]. exists [].
    split; [unfold appended; simpl; rewrite !app_nil_r; auto using same_config_refl|].
    split; [constructor|]. split; [simpl; intros; lia | exact I].
Qed.

Lemma appended_grown (P : string -> Prop) t imgs self self' :
  P t -> appended t imgs self self' -> grown P self self'.
Proof.
  intros Ht (Hcfg & Hdata & Htargets). split; [exact Hcfg|].
  exists imgs, (replicate (length imgs) t).
  repeat split; try assumption.
  - rewrite length_replicate. reflexivity.
  - apply Forall_forall. intros x Hx.
    apply elem_of_replicate in Hx as [-> _]. exact Ht.
Qed.

Lemma grown_refl (P : string -> Prop) self : grown P self self.
Proof.
  split; [apply same_config_refl|]. exists [], [].
  rewrite !app_nil_r. repeat split. constructor.
Qed.

Lemma grown_trans (P : string -> Prop) s1 s2 s3 :
  grown P s1 s2 -> grown P s2 s3 -> grown P s1 s3.
Proof.
  intros (Hc1 & i1 & l1 & Hd1 & Ht1 & Hn1 & Hp1) (Hc2 & i2 & l2 & Hd2 & Ht2 & Hn2 & Hp2).
  split; [eapply same_config_trans; eauto|].
  exists (i1 ++ i2), (l1 ++ l2).
  rewrite Hd2, Hd1, Ht2, Ht1, <- !app_assoc, !length_app.
  repeat split; [lia|]. apply Forall_app; split; assumption.
Qed.

Lemma grown_weaken (P Q : string -> Prop) s1 s2 :
  (forall t, P t -> Q t) -> grown P s1 s2 -> grown Q s1 s2.
Proof.
  intros HPQ (Hc & imgs & labels & Hd & Ht & Hn & Hp).
  split; [exact Hc|]. exists imgs, labels. repeat split; try assumption.
  eapply Forall_impl; eauto.
Qed.

Lemma grown_balanced (P : string -> Prop) s1 s2 :
  grown P s1 s2 -> balanced s1 -> balanced s2.
Proof.
  unfold balanced. intros (_ & imgs & labels & -> & -> & Hn & _) Hb.
  rewrite !length_app. lia.
Qed.


Lemma appended_refl t self : appended t [] self self.
Proof.
  split; [apply same_config_refl|]. simpl. rewrite !app_nil_r. auto.
Qed.

Lemma appended_trans t i1 i2 s1 s2 s3 :
  appended t i1 s1 s2 -> appended t i2 s2 s3 -> appended t (i1 ++ i2) s1 s3.
Proof.
  intros (Hc1 & Hd1 & Ht1) (Hc2 & Hd2 & Ht2).
  split; [eapply same_config_trans; eauto|].
  rewrite Hd2, Hd1, Ht2, Ht1, <- !app_assoc, length_app, replicate_add. auto.
Qed.

(** ** Sequencing *)

Lemma bind_inv {S A B} (m : M S A) (k : A -> M S B) s s' r :
  bind m k s = (s', r) ->
  (exists s1 a, m s = (s1, Ok a) /\ k a s1 = (s', r)) \/
  (exists e, m s = (s', Raise e) /\ r = Raise e).
Proof.
  unfold bind. destruct (m s) as [s1 [a|e]]; intros Hrun.
  - left. eauto.
  - right. injection Hrun as <- <-. eauto.
Qed.

Lemma lift_io_inv {A} (io : IO A) self w self' w' r :
  lift_io io (self, w) = ((self', w'), r) ->
  self' = self /\ io w = (w', r).
Proof.
  unfold lift_io. simpl. destruct (io w) as [w1 r1].
  intros [= <- <- <-]. auto.
Qed.

Lemma bind_get_self {A} (k : NISTDB19Dataset -> Method A) self w :
  bind get_self k (self, w) = k self (self, w).
Proof. reflexivity. Qed.

(** ** Scanning a class *)

Lemma hsf_loop_cons c folder i idxs k :
  hsf_loop c folder (i :: idxs) k =
  bind get_self (fun self =>
    bind (_add_samples_from_dir
            (Some (join (root_dir self) ["by_class"; folder; "hsf_" +:+ str i]))
            (Some (chr c)) k)
         (fun r => if r =? 1 then ret tt else hsf_loop c folder idxs k)).
Proof. reflexivity. Qed.

(** The partitions of one class: the loop only appends samples of that
    class, and when no counter value meets the cap it runs through every
    partition and takes every file. *)
Lemma hsf_loop_spec c folder idxs : forall k self w self' w' r,
  hsf_loop c folder idxs k (self, w) = ((self', w'), r) ->
  same_disk w w' /\
  exists imgs,
    appended (chr c) imgs self self' /\
    (unreachable (size_per_class self) -> r = Ok tt ->
     length imgs =
     sum_list (map (fun i => length (listing (w_fs w)
                     (join (root_dir self) ["by_class"; folder; "hsf_" +:+ str i])))
                   idxs)).
Proof.
  induction idxs as [|i idxs IH]; intros k self w self' w' r Hrun.
  - simpl in Hrun. injection Hrun as <- <- <-.
    split; [apply same_disk_refl|]. exists [].
    split; [apply appended_refl | reflexivity].
  - rewrite hsf_loop_cons, bind_get_self in Hrun.
    apply bind_inv in Hrun as [(s1 & v & Hdir & Hrest) | (e & Hdir & ->)].
    + destruct s1 as [self1 w1].
      apply add_samples_from_dir_spec in Hdir
        as (Hdisk & imgs & Happ & _ & _ & Hres).
      destruct (v =? 1) eqn:Hv.
      * injection Hrest as <- <- <-.
        split; [exact Hdisk|]. exists imgs. split; [exact Happ|].
        intros Hcap _. apply Z.eqb_eq in Hv as ->.
        destruct Hres as [(_ & _ & Hhit) | (Hv & _)]; [|discriminate].
        rewrite Hcap in Hhit. discriminate.
      * apply IH in Hrest as (Hdisk' & imgs' & Happ' & Hall).
        split; [eapply same_disk_trans; eauto|].
        exists (imgs ++ imgs'). split; [eapply appended_trans; eauto|].
        intros Hcap Hok. cbn [map sum_list foldr]. rewrite length_app.
        destruct Happ as ((_ & Hroot & _ & _ & Hsize) & _).
        destruct Hdisk as [Hfs _].
        rewrite Hsize, Hroot, Hfs in Hall. rewrite (Hall Hcap Hok).
        destruct Hres as [(-> & _) | (_ & -> & _)]; [discriminate | reflexivity].
    + apply add_samples_from_dir_spec in Hdir as (Hdisk & imgs & Happ & _).
      split; [exact Hdisk|]. exists imgs. split; [exact Happ|]. discriminate.
Qed.

Lemma process_class_spec c self w self' w' r :
  process_class c (self, w) = ((self', w'), r) ->
  same_disk w w' /\ exists imgs, appended (chr c) imgs self self'.
Proof.
  unfold process_class. rewrite bind_get_self.
  destruct (train self).
  - intros Hrun. apply hsf_loop_spec in Hrun as (Hdisk & imgs & Happ & _). eauto.
  - intros Hrun.
    apply bind_inv in Hrun as [(s1 & v & Hdir & Hrest) | (e & Hdir & ->)].
    + destruct s1 as [self1 w1]. injection Hrest as <- <- <-.
      apply add_samples_from_dir_spec in Hdir as (Hdisk & imgs & Happ & _). eauto.
    + apply add_samples_from_dir_spec in Hdir as (Hdisk & imgs & Happ & _). eauto.
Qed.


(** ** The archive step leaves the object alone *)

Ltac method_steps :=
  repeat match goal with
  | Hrun : bind (lift_io _) _ (_, _) = (_, _) |- _ =>
      let s1 := fresh "s" in let Hm := fresh "Hm" in
      apply bind_inv in Hrun as [(s1 & ? & Hm & Hrun) | (? & Hm & ->)];
      [destruct s1|]; apply lift_io_inv in Hm as [-> _]
  | Hrun : lift_io _ (_, _) = (_, _) |- _ =>
      apply lift_io_inv in Hrun as [-> _]
  | Hrun : (if ?b then _ else _) (_, _) = (_, _) |- _ => destruct b
  | Hrun : raise _ (_, _) = (_, _) |- _ => injection Hrun as <- <- <-
  end.

Lemma download_self need_to_download self w self' w' r :
  _download need_to_download (self, w) = ((self', w'), r) -> self' = self.
Proof.
  unfold _download. rewrite bind_get_self. intros Hrun.
  method_steps; reflexivity.
Qed.

(** ** The class loop *)

Lemma for_each_classes_spec classes : forall self w self' w' r,
  for_each classes process_class (self, w) = ((self', w'), r) ->
  same_disk w w' /\
  grown (fun t => exists c, In c classes /\ t = chr c) self self'.
Proof.
  induction classes as [|c classes IH]; intros self w self' w' r Hrun.
  - injection Hrun as <- <- <-. split; [apply same_disk_refl | apply grown_refl].
  - cbn [for_each] in Hrun.
    apply bind_inv in Hrun as [(s1 & [] & Hc & Hrest) | (e & Hc & ->)].
    + destruct s1 as [self1 w1].
      apply process_class_spec in Hc as (Hdisk & imgs & Happ).
      apply IH in Hrest as (Hdisk' & Hgrown).
      split; [eapply same_disk_trans; eauto|].
      eapply grown_trans.
      * eapply appended_grown; [|exact Happ]. exists c. split; [left|]; reflexivity.
      * eapply grown_weaken; [|exact Hgrown].
        intros t (c' & Hin & ->). exists c'. split; [right; exact Hin | reflexivity].
    + apply process_class_spec in Hc as (Hdisk & imgs & Happ).
      split; [exact Hdisk|].
      eapply appended_grown; [|exact Happ]. exists c. split; [left|]; reflexivity.
Qed.

(** [_process] only appends samples, as many images as labels, every label
    the character of a class code of the selected range. *)
Lemma process_spec download dt self w self' w' r :
  _process download dt (self, w) = ((self', w'), r) ->
  grown (fun t => exists entry c,
           folder_map_get dt = Some entry /\
           (start entry <= c < start entry + len entry)%nat /\ t = chr c)
        self self'.
Proof.
  unfold _process. intros Hrun.
  apply bind_inv in Hrun as [(s1 & [] & Hd & Hrest) | (e & Hd & ->)].
  - destruct s1 as [self1 w1]. apply download_self in Hd as ->.
    destruct (folder_map_get dt) as [entry|].
    + apply for_each_classes_spec in Hrest as (_ & Hgrown).
      eapply grown_weaken; [|exact Hgrown].
      intros t (c & Hin & ->). exists entry, c.
      apply in_seq in Hin. auto.
    + injection Hrest as <- <- <-. apply grown_refl.
  - apply download_self in Hd as ->. apply grown_refl.
Qed.


Lemma process_ok_inv download dt self w self' w' u :
  _process download dt (self, w) = ((self', w'), Ok u) ->
  exists entry w1,
    folder_map_get dt = Some entry /\
    for_each (seq (start entry) (len entry)) process_class (self, w1)
    = ((self', w'), Ok u).
Proof.
  unfold _process. intros Hrun.
  apply bind_inv in Hrun as [(s1 & [] & Hd & Hrest) | (e & _ & [=])].
  destruct s1 as [self1 w1]. apply download_self in Hd as ->.
  destruct (folder_map_get dt) as [entry|]; [eauto | discriminate].
Qed.

(** ** The constructor *)

(** Every way [__init__] can end.  Without an object: the configuration
    error, or the [TypeError] of a missing root.  With one: it grew from the
    fresh object by samples of the selected range, and its cap is the size
    limit, or the float quotient when the limit is shared between classes. *)
Lemma init_spec a w w' o :
  __init__ a w = (w', o) ->
  match o with
  | Failed None e =>
      w' = w /\
      ((folder_map_get (arg_data_type a) = None /\ e = RuntimeError msg_data_type) \/
       (folder_map_get (arg_data_type a) <> None /\ arg_root_dir a = None /\
        e = TypeError msg_not_a_path))
  | Failed (Some self) e =>
      exists entry root,
        folder_map_get (arg_data_type a) = Some entry /\
        arg_root_dir a = Some root /\
        ((arg_size_limit_per_class a = false /\
          int_truediv (arg_size_limit a) (Z.of_nat (len entry)) = Raise e /\
          self = fresh_object a root (PyInt (arg_size_limit a)) /\ w' = w) \/
         exists size,
           (if arg_size_limit_per_class a then size = PyInt (arg_size_limit a)
            else exists q, int_truediv (arg_size_limit a) (Z.of_nat (len entry)) = Ok q /\
                           size = PyFloat q) /\
           grown (label_in_range entry) (fresh_object a root size) self /\
           (fs_exists (w_fs w) (expanduser root) = false ->
            self = fresh_object a root size /\
            e = RuntimeError (msg_no_path (expanduser root)) /\
            same_disk w w' /\ w_log w' = EvExists (expanduser root) :: w_log w))
  | Built self =>
      exists entry root size,
        folder_map_get (arg_data_type a) = Some entry /\
        arg_root_dir a = Some root /\
        fs_exists (w_fs w) (expanduser root) = true /\
        (if arg_size_limit_per_class a then size = PyInt (arg_size_limit a)
         else exists q, int_truediv (arg_size_limit a) (Z.of_nat (len entry)) = Ok q /\
                        size = PyFloat q) /\
        grown (label_in_range entry) (fresh_object a root size) self /\
        exists w1,
          for_each (seq (start entry) (len entry)) process_class
                   (fresh_object a root size, w1) = ((self, w'), Ok tt)
  end.
Proof.
  unfold __init__.
  destruct (folder_map_get (arg_data_type a)) as [entry|] eqn:Hentry;
    [|intros [= <- <-]; auto].
  destruct (arg_root_dir a) as [root|] eqn:Hroot;
    [|intros [= <- <-]; split; [reflexivity|]; right; repeat split; congruence].
  assert (Hrange : forall self self',
    grown (fun t => exists entry0 c,
             folder_map_get (arg_data_type a) = Some entry0 /\
             (start entry0 <= c < start entry0 + len entry0)%nat /\ t = chr c)
          self self' ->
    grown (label_in_range entry) self self').
  { intros self self'. apply grown_weaken.
    intros t (entry0 & c & Hentry0 & Hc & ->).
    rewrite Hentry in Hentry0. injection Hentry0 as <-. exists c. auto. }
  assert (Hscan : forall size (self0 := fresh_object a root size),
    (if arg_size_limit_per_class a then size = PyInt (arg_size_limit a)
     else exists q, int_truediv (arg_size_limit a) (Z.of_nat (len entry)) = Ok q /\
                    size = PyFloat q) ->
    match os_path_exists (root_dir self0) w with
    | (w1, Ok true) =>
        match _process (arg_download a) (arg_data_type a) (self0, w1) with
        | ((self', w2), Ok _) => (w2, Built self')
        | ((self', w2), Raise e) => (w2, Failed (Some self') e)
        end
    | (w1, Ok false) =>
        (w1, Failed (Some self0) (RuntimeError (msg_no_path (root_dir self0))))
    | (w1, Raise e) => (w1, Failed (Some self0) e)
    end = (w', o) ->
    match o with
    | Failed None _ => False
    | Failed (Some self) e =>
        grown (label_in_range entry) self0 self /\
        (fs_exists (w_fs w) (expanduser root) = false ->
         self = self0 /\ e = RuntimeError (msg_no_path (expanduser root)) /\
         same_disk w w' /\ w_log w' = EvExists (expanduser root) :: w_log w)
    | Built self =>
        fs_exists (w_fs w) (expanduser root) = true /\
        grown (label_in_range entry) self0 self /\
        exists w1,
          for_each (seq (start entry) (len entry)) process_class (self0, w1)
          = ((self, w'), Ok tt)
    end).
  { intros size self0 Hsize.
    destruct (os_path_exists (root_dir self0) w) as [w1 r1] eqn:Hex.
    apply os_path_exists_spec in Hex as (Hdisk & Hlog & ->).
    change (root_dir self0) with (expanduser root) in *.
    destruct (fs_exists (w_fs w) (expanduser root)) eqn:Hroot_exists.
    - destruct (_process (arg_download a) (arg_data_type a) (self0, w1))
        as [[self' w2] [[]|e]] eqn:Hproc; intros [= <- <-].
      + split; [reflexivity|]. split; [eapply Hrange, process_spec; exact Hproc|].
        apply process_ok_inv in Hproc as (entry0 & w3 & Hentry0 & Hloop).
        rewrite Hentry in Hentry0. injection Hentry0 as <-. eauto.
      + apply process_spec, Hrange in Hproc. split; [exact Hproc | discriminate].
    - intros [= <- <-]. split; [apply grown_refl | auto]. }
  destruct (arg_size_limit_per_class a) eqn:Hper; cbn [negb].
  - intros Hrun. apply (Hscan (PyInt (arg_size_limit a)) eq_refl) in Hrun.
    destruct o as [self | [self|] e]; [| |contradiction].
    + exists entry, root, (PyInt (arg_size_limit a)). intuition.
    + exists entry, root. split; [reflexivity|]. split; [reflexivity|].
      right. exists (PyInt (arg_size_limit a)). intuition.
  - destruct (int_truediv (arg_size_limit a) (Z.of_nat (len entry))) as [q|e0] eqn:Hdiv.
    + intros Hrun.
      apply (Hscan (PyFloat q) (ex_intro _ q (conj eq_refl eq_refl))) in Hrun.
      destruct o as [self | [self|] e]; [| |contradiction].
      * exists entry, root, (PyFloat q). intuition eauto.
      * exists entry, root. split; [reflexivity|]. split; [reflexivity|].
        right. exists (PyFloat q). intuition eauto.
    + intros [= <- <-]. exists entry, root.
      split; [reflexivity|]. split; [reflexivity|]. left. auto.
Qed.


(** ** Counting the samples of a class *)

Lemma chr_inj c c' : (c < 256)%nat -> (c' < 256)%nat -> chr c = chr c' -> c = c'.
Proof.
  unfold chr. intros Hc Hc' [= Heq].
  rewrite <- (nat_ascii_embedding c Hc), <- (nat_ascii_embedding c' Hc'), Heq.
  reflexivity.
Qed.

Lemma ord_chr c : (c < 256)%nat -> ord (chr c) = Some c.
Proof. intros Hc. unfold ord, chr. rewrite nat_ascii_embedding; auto. Qed.

Lemma count_label_app t l1 l2 :
  count_label t (l1 ++ l2) = (count_label t l1 + count_label t l2)%nat.
Proof. unfold count_label. rewrite List.filter_app, length_app. reflexivity. Qed.

Lemma count_label_replicate_same t n : count_label t (replicate n t) = n.
Proof.
  unfold count_label. induction n as [|n IH]; [reflexivity|].
  cbn [replicate List.filter]. rewrite String.eqb_refl. cbn [length]. congruence.
Qed.

Lemma count_label_replicate_other t t' n :
  t <> t' -> count_label t (replicate n t') = 0%nat.
Proof.
  intros Hne. apply String.eqb_neq in Hne.
  unfold count_label. induction n as [|n IH]; [reflexivity|].
  cbn [replicate List.filter]. rewrite Hne. exact IH.
Qed.

Lemma count_label_absent (f : nat -> nat) c classes :
  (c < 256)%nat -> (forall c', In c' classes -> (c' < 256)%nat) ->
  ~ In c classes ->
  count_label (chr c) (concat (map (fun c' => replicate (f c') (chr c')) classes))
  = 0%nat.
Proof.
  intros Hc. induction classes as [|c1 classes IH]; intros Hlt Hout; [reflexivity|].
  cbn [map concat]. rewrite count_label_app, count_label_replicate_other, IH.
  - reflexivity.
  - intros c' Hc'. apply Hlt. right. exact Hc'.
  - intros Hin. apply Hout. right. exact Hin.
  - intros Heq. apply Hout. left. symmetry.
    apply chr_inj in Heq; [exact Heq | exact Hc |]. apply Hlt. left. reflexivity.
Qed.

Lemma count_label_classes (f : nat -> nat) c classes :
  NoDup classes -> (forall c', In c' classes -> (c' < 256)%nat) ->
  In c classes ->
  count_label (chr c) (concat (map (fun c' => replicate (f c') (chr c')) classes))
  = f c.
Proof.
  induction classes as [|c0 classes IH]; intros Hnd Hlt Hin; [destruct Hin|].
  cbn [map concat]. rewrite count_label_app.
  apply NoDup_cons in Hnd as [Hnotin Hnd].
  assert (Hlt' : forall c', In c' classes -> (c' < 256)%nat)
    by (intros c' Hc'; apply Hlt; right; exact Hc').
  destruct Hin as [->|Hin].
  - rewrite count_label_replicate_same, count_label_absent; [lia | | exact Hlt' |].
    + apply Hlt. left. reflexivity.
    + intros Hc. apply Hnotin. apply list_elem_of_In. exact Hc.
  - rewrite count_label_replicate_other, IH; auto.
    intros Heq. apply Hnotin. apply list_elem_of_In.
    apply chr_inj in Heq; [subst; exact Hin| |].
    + apply Hlt'. exact Hin.
    + apply Hlt. left. reflexivity.
Qed.

(** When every class of the loop contributes [f c] samples, the labels of
    the dataset are those, class after class. *)
Lemma for_each_classes_counts (f : nat -> nat) self0 w0 classes :
  forall self w self' w',
  same_config self0 self -> w_fs w = w_fs w0 ->
  (forall c s1 v1 s2 v2,
     In c classes -> same_config self0 s1 -> w_fs v1 = w_fs w0 ->
     process_class c (s1, v1) = ((s2, v2), Ok tt) ->
     exists imgs, appended (chr c) imgs s1 s2 /\ length imgs = f c) ->
  for_each classes process_class (self, w) = ((self', w'), Ok tt) ->
  targets self' =
  targets self ++ concat (map (fun c => replicate (f c) (chr c)) classes).
Proof.
  induction classes as [|c classes IH]; intros self w self' w' Hcfg Hfs Hbody Hrun.
  - injection Hrun as <- <-. cbn [map concat]. rewrite app_nil_r. reflexivity.
  - cbn [for_each] in Hrun.
    apply bind_inv in Hrun as [(s1 & [] & Hc & Hrest) | (e & _ & [=])].
    destruct s1 as [self1 w1].
    pose proof (process_class_spec _ _ _ _ _ _ Hc) as ([Hfs1 _] & _).
    destruct (Hbody c self w self1 w1 (or_introl eq_refl) Hcfg Hfs Hc)
      as (imgs & (Hcfg1 & _ & Htargets) & Hlen).
    apply IH in Hrest.
    + rewrite Hrest, Htargets, Hlen, <- app_assoc. reflexivity.
    + eapply same_config_trans; eauto.
    + congruence.
    + intros c' s2 v2 s3 v3 Hin. apply Hbody. right. exact Hin.
Qed.


(** ** Caps that no counter meets *)

Lemma fractional_unreachable q :
  float_is_integer q = false -> unreachable (PyFloat q).
Proof.
  intros Hfrac k. destruct q as [s|s| |s m e]; cbn in *; try reflexivity;
    [discriminate|].
  destruct (0 <=? e) eqn:He; [discriminate|].
  apply Z.leb_gt in He. apply Z.eqb_neq in Hfrac. apply Z.eqb_neq.
  intros Heq. apply Hfrac.
  assert (Hpow : 0 < 2 ^ (- e)) by (apply Z.pow_pos_nonneg; lia).
  destruct s.
  - replace (Z.pos m) with ((- k) * 2 ^ (- e)) by lia.
    apply Z_mod_mult.
  - rewrite <- Heq. apply Z_mod_mult.
Qed.

Lemma process_class_unbounded c self w self' w' :
  unreachable (size_per_class self) ->
  process_class c (self, w) = ((self', w'), Ok tt) ->
  exists imgs,
    appended (chr c) imgs self self' /\
    length imgs = class_files (w_fs w) (root_dir self) (train self) c.
Proof.
  intros Hcap. unfold process_class, class_files. rewrite bind_get_self.
  destruct (train self).
  - intros Hrun. apply hsf_loop_spec in Hrun as (_ & imgs & Happ & Hall).
    exists imgs. split; [exact Happ|]. apply Hall; auto.
  - intros Hrun.
    apply bind_inv in Hrun as [(s1 & v & Hdir & Hrest) | (e & _ & [=])].
    destruct s1 as [self1 w1]. injection Hrest as <- <-.
    apply add_samples_from_dir_spec in Hdir as (_ & imgs & Happ & _ & _ & Hres).
    exists imgs. split; [exact Happ|].
    destruct Hres as [(_ & _ & Hhit) | (_ & Hlen & _)]; [|exact Hlen].
    rewrite Hcap in Hhit. discriminate.
Qed.

(** ** The test folder under an integer cap *)

Lemma process_class_test c limit self w self' w' :
  train self = false -> size_per_class self = PyInt limit ->
  process_class c (self, w) = ((self', w'), Ok tt) ->
  exists imgs,
    appended (chr c) imgs self self' /\
    length imgs =
      scan_count limit (length (listing (w_fs w) (test_path (root_dir self) c))) /\
    decoded (w_fs w) (test_path (root_dir self) c)
            (take (length imgs) (listing (w_fs w) (test_path (root_dir self) c)))
            imgs.
Proof.
  intros Htest Hcap. unfold process_class. rewrite bind_get_self, Htest.
  intros Hrun.
  apply bind_inv in Hrun as [(s1 & v & Hdir & Hrest) | (e & _ & [=])].
  destruct s1 as [self1 w1]. injection Hrest as <- <-.
  apply add_samples_from_dir_spec in Hdir as (_ & imgs & Happ & Hdec & _ & Hres).
  fold (test_path (root_dir self) c) in *.
  exists imgs. split; [exact Happ|]. split; [|exact Hdec].
  rewrite Hcap in Hres. unfold scan_count. cbn [int_eq] in Hres.
  destruct Hres as [(_ & Hlen & Hhit) | (_ & Hlen & Hmiss)].
  - apply Z.eqb_eq in Hhit.
    replace ((1 <=? limit) && (limit <=? _))%bool with true; [lia|].
    symmetry. apply andb_true_iff. split; apply Z.leb_le; lia.
  - replace ((1 <=? limit) && (limit <=? _))%bool with false; [lia|].
    symmetry. apply andb_false_iff.
    destruct (Z.leb_spec 1 limit) as [Hlo|Hlo]; [|left; reflexivity].
    right. apply Z.leb_gt.
    destruct (Z.le_gt_cases limit (Z.of_nat (length imgs))) as [Hhi|Hhi]; [|lia].
    specialize (Hmiss (Z.to_nat limit) ltac:(lia)).
    apply Z.eqb_neq in Hmiss. lia.
Qed.


(** ** The class map *)

Lemma folder_map_get_cases dt entry :
  folder_map_get dt = Some entry ->
  (dt = Some "digits" /\ entry = {| start := 0x30; len := 10 |}) \/
  (dt = Some "cap_letters" /\ entry = {| start := 0x41; len := 26 |}) \/
  (dt = Some "low_letters" /\ entry = {| start := 0x61; len := 26 |}).
Proof.
  destruct dt as [k|]; [|discriminate]. unfold folder_map_get, folder_map.
  cbn [assoc_get].
  destruct (String.eqb_spec k "digits") as [->|_];
    [intros [= <-]; auto|].
  destruct (String.eqb_spec k "cap_letters") as [->|_];
    [intros [= <-]; auto|].
  destruct (String.eqb_spec k "low_letters") as [->|_];
    [intros [= <-]; auto 6 | discriminate].
Qed.

Lemma folder_map_get_unknown dt :
  dt = None \/
  (exists k, dt = Some k /\ k <> "digits" /\ k <> "cap_letters" /\ k <> "low_letters") ->
  folder_map_get dt = None.
Proof.
  intros [-> | (k & -> & H1 & H2 & H3)]; [reflexivity|].
  unfold folder_map_get, folder_map. cbn [assoc_get].
  apply String.eqb_neq in H1, H2, H3. rewrite H1, H2, H3. reflexivity.
Qed.

Lemma folder_entry_below_256 dt entry :
  folder_map_get dt = Some entry -> (start entry + len entry <= 256)%nat.
Proof.
  intros Hget. apply folder_map_get_cases in Hget
    as [(_ & ->) | [(_ & ->) | (_ & ->)]]; cbn; lia.
Qed.

(** ** From the class loop to the dataset *)

Lemma dataset_counts (f : nat -> nat) first count self0 w1 self w' :
  targets self0 = [] -> (first + count <= 256)%nat ->
  for_each (seq first count) process_class (self0, w1) = ((self, w'), Ok tt) ->
  (forall c s1 v1 s2 v2,
     same_config self0 s1 -> w_fs v1 = w_fs w' ->
     process_class c (s1, v1) = ((s2, v2), Ok tt) ->
     exists imgs, appended (chr c) imgs s1 s2 /\ length imgs = f c) ->
  forall c, (first <= c < first + count)%nat ->
            count_label (chr c) (targets self) = f c.
Proof.
  intros Hempty Hbound Hrun Hbody c Hc.
  pose proof (for_each_classes_spec _ _ _ _ _ _ Hrun) as ([Hfs _] & _).
  assert (Hbody' : forall c' s1 v1 s2 v2,
    In c' (seq first count) -> same_config self0 s1 -> w_fs v1 = w_fs w1 ->
    process_class c' (s1, v1) = ((s2, v2), Ok tt) ->
    exists imgs, appended (chr c') imgs s1 s2 /\ length imgs = f c').
  { intros c' s1 v1 s2 v2 _ Hcfg Hv1. apply Hbody; [exact Hcfg | congruence]. }
  rewrite (for_each_classes_counts f self0 w1 _ _ _ _ _
             (same_config_refl self0) eq_refl Hbody' Hrun).
  rewrite Hempty. cbn [app]. apply count_label_classes.
  - apply NoDup_seq.
  - intros c' Hc'. apply in_seq in Hc'. lia.
  - apply in_seq. lia.
Qed.


(** * The claims *)

(** C8: whatever the other arguments, construction raises the configuration
    error when [data_type] is omitted or is none of ['digits'],
    ['cap_letters'], ['low_letters'], and nothing else happens: the world
    comes back as it was (no call was logged, so no download and no scan) and
    no object was set up, so no sample was accumulated. *)
Theorem C8_unknown_data_type_is_refused_first a w :
  arg_data_type a = None \/
  (exists k, arg_data_type a = Some k /\
             k <> "digits" /\ k <> "cap_letters" /\ k <> "low_letters") ->
  __init__ a w = (w, Failed None (RuntimeError msg_data_type)) /\
  construct a w = (w, Raise (RuntimeError msg_data_type)) /\
  is_configuration_error (RuntimeError msg_data_type).
Proof.
  intros Hdt. apply folder_map_get_unknown in Hdt.
  unfold construct, __init__. rewrite Hdt. repeat split.
Qed.

(** For a dataset the first thing [save_to_file] does is ask the file
    system about the directory of the path. *)
Lemma save_dataset_consults_fs d filepath force_overwrite w :
  EvExists (dirname filepath) :: w_log w
  `suffix_of` w_log (fst (save_to_file (ObjDataset d) filepath force_overwrite w)).
Proof.
  cbv [save_to_file bind os_path_exists log modify get ret raise].
  cbn [w_fs w_stdin w_log].
  destruct (fs_exists (w_fs w) (dirname filepath)); cbn [negb fst w_log];
    [|reflexivity].
  destruct force_overwrite; cbn [negb w_fs w_stdin w_log].
  2: destruct (fs_exists (w_fs w) filepath);
       [cbn; apply suffix_cons_r, suffix_cons_r; reflexivity|].
  all: cbv [open_wb bind log modify get ret raise set_fs file_write];
    cbn [w_fs w_stdin w_log];
    destruct (fs_lookup (w_fs w) filepath) as [[es|c]|];
    try destruct (String.eqb (dirname filepath) "");
    try destruct (fs_lookup (w_fs w) (dirname filepath)) as [[es'|c']|];
    try destruct (compress_pickle_dump d);
    cbn [fst w_log]; repeat first [reflexivity | apply suffix_cons_r].
Qed.

(** C10: [save_to_file] raises a [RuntimeError] when the object it is given
    is not a dataset, and it does so before any call reaches the file
    system: the world, log included, is untouched, whatever the path and the
    overwrite flag; with a dataset, the log starts with the question the
    file system is asked first. *)
Theorem C10_save_refuses_foreign_object type_repr filepath force_overwrite w :
  save_to_file (ObjOther type_repr) filepath force_overwrite w
  = (w, Raise (RuntimeError (msg_not_dataset type_repr))) /\
  w_log (fst (save_to_file (ObjOther type_repr) filepath force_overwrite w))
  = w_log w /\
  forall d,
    EvExists (dirname filepath) :: w_log w
    `suffix_of` w_log (fst (save_to_file (ObjDataset d) filepath force_overwrite w)).
Proof.
  split; [reflexivity|]. split; [reflexivity|].
  intros d. apply save_dataset_consults_fs.
Qed.

(** C4: the images and the labels always have the same length.  They start
    empty together; an append adds exactly one element to each; every method
    that runs during construction keeps the two lengths equal, however it
    ends; so whenever [__init__] ends with an object, built or not, the
    lengths agree and [__len__] is the number of labels appended. *)
Theorem C4_images_and_labels_keep_equal_length a w :
  (forall root size,
     data (fresh_object a root size) = [] /\
     targets (fresh_object a root size) = []) /\
  (forall image t self w0,
     length (data (fst (fst (append_sample image t (self, w0)))))
     = S (length (data self)) /\
     length (targets (fst (fst (append_sample image t (self, w0)))))
     = S (length (targets self))) /\
  (forall dir t k self w0,
     balanced self ->
     balanced (fst (fst (_add_samples_from_dir (Some dir) (Some t) k (self, w0))))) /\
  (forall c self w0,
     balanced self -> balanced (fst (fst (process_class c (self, w0))))) /\
  (forall download dt self w0,
     balanced self -> balanced (fst (fst (_process download dt (self, w0))))) /\
  match snd (__init__ a w) with
  | Built self | Failed (Some self) _ =>
      balanced self /\ __len__ self = length (targets self)
  | Failed None _ => True
  end.
Proof.
  split; [intros; split; reflexivity|].
  split.
  { intros image t self w0. rewrite append_sample_spec. cbn [fst data targets].
    rewrite !length_app. cbn [length]. lia. }
  split.
  { intros dir t k self w0 Hbal.
    destruct (_add_samples_from_dir (Some dir) (Some t) k (self, w0))
      as [[self' w'] r] eqn:Hrun.
    apply add_samples_from_dir_spec in Hrun as (_ & imgs & Happ & _).
    eapply grown_balanced; [|exact Hbal].
    eapply (appended_grown (fun _ => True)); [exact I | exact Happ]. }
  split.
  { intros c self w0 Hbal.
    destruct (process_class c (self, w0)) as [[self' w'] r] eqn:Hrun.
    apply process_class_spec in Hrun as (_ & imgs & Happ).
    eapply grown_balanced; [|exact Hbal].
    eapply (appended_grown (fun _ => True)); [exact I | exact Happ]. }
  split.
  { intros download dt self w0 Hbal.
    destruct (_process download dt (self, w0)) as [[self' w'] r] eqn:Hrun.
    apply process_spec in Hrun. eapply grown_balanced; eauto. }
  destruct (__init__ a w) as [w' o] eqn:Hinit. apply init_spec in Hinit.
  assert (Hfresh : forall root size, balanced (fresh_object a root size))
    by reflexivity.
  unfold __len__. cbn [snd].
  destruct o as [self | [self|] e]; [| |exact I].
  - destruct Hinit as (entry & root & size & _ & _ & _ & _ & Hgrown & _).
    apply grown_balanced in Hgrown; [|apply Hfresh]. split; [exact Hgrown|exact Hgrown].
  - destruct Hinit as (entry & root & _ & _ & [(_ & _ & -> & _) | (size & _ & Hgrown & _)]).
    + split; reflexivity.
    + apply grown_balanced in Hgrown; [|apply Hfresh]. split; exact Hgrown.
Qed.

(** C5: in a successfully constructed dataset every label is the character
    of a code point of the selected range: [0x30, 0x3A) for ['digits'],
    [0x41, 0x5B) for ['cap_letters'], [0x61, 0x7B) for ['low_letters']. *)
Theorem C5_labels_lie_in_the_class_range a w w' self :
  construct a w = (w', Ok self) ->
  forall t, In t (targets self) ->
  exists c,
    t = chr c /\ ord t = Some c /\
    ((arg_data_type a = Some "digits" /\ (0x30 <= c < 0x3A)%nat) \/
     (arg_data_type a = Some "cap_letters" /\ (0x41 <= c < 0x5B)%nat) \/
     (arg_data_type a = Some "low_letters" /\ (0x61 <= c < 0x7B)%nat)).
Proof.
  unfold construct. destruct (__init__ a w) as [w1 o] eqn:Hinit.
  destruct o as [self1|partial e]; intros [= <- <-].
  apply init_spec in Hinit
    as (entry & root & size & Hentry & _ & _ & _ & (_ & imgs & labels & _ & Ht & _ & Hall) & _).
  cbn in Ht. subst labels. intros t Hin.
  rewrite Forall_forall in Hall.
  destruct (Hall t) as (c & Hc & ->); [apply list_elem_of_In; exact Hin|].
  pose proof (folder_entry_below_256 _ _ Hentry) as Hlt.
  exists c. split; [reflexivity|]. split; [apply ord_chr; lia|].
  apply folder_map_get_cases in Hentry
    as [(-> & ->) | [(-> & ->) | (-> & ->)]]; cbn in Hc; [left | right; left | right; right];
    (split; [reflexivity | lia]).
Qed.


(** C2, amended: in test mode with an integer per-class limit the scan of
    [train_<hex>] does enforce the limit.  It appends the files in listing
    order and stops when the number appended equals the limit, so a class
    ends with the first [limit] files when [1 <= limit <= n] and with all
    [n] files otherwise; only the returned flag goes unused. *)
Theorem C2_test_scan_stops_at_the_limit a w w' self :
  arg_train a = false ->
  arg_size_limit_per_class a = true ->
  construct a w = (w', Ok self) ->
  (forall entry c,
     folder_map_get (arg_data_type a) = Some entry ->
     (start entry <= c < start entry + len entry)%nat ->
     count_label (chr c) (targets self)
     = scan_count (arg_size_limit a)
         (length (listing (w_fs w') (test_path (root_dir self) c)))) /\
  (forall c s1 v1 s2 v2,
     same_config self s1 ->
     process_class c (s1, v1) = ((s2, v2), Ok tt) ->
     exists imgs,
       appended (chr c) imgs s1 s2 /\
       length imgs
       = scan_count (arg_size_limit a)
           (length (listing (w_fs v1) (test_path (root_dir s1) c))) /\
       decoded (w_fs v1) (test_path (root_dir s1) c)
               (take (length imgs) (listing (w_fs v1) (test_path (root_dir s1) c)))
               imgs).
Proof.
  intros Htest Hper. unfold construct.
  destruct (__init__ a w) as [w1 o] eqn:Hinit.
  destruct o as [self1|partial e]; intros [= <- <-].
  apply init_spec in Hinit
    as (entry & root & size & Hentry & _ & _ & Hsize & (Hcfg & _) & w2 & Hloop).
  rewrite Hper in Hsize. subst size.
  destruct Hcfg as (_ & Hroot & Htrain & _ & Hcap).
  cbn [fresh_object train size_per_class root_dir] in Hroot, Htrain, Hcap.
  split.
  - intros entry0 c Hentry0 Hc.
    rewrite Hentry in Hentry0. injection Hentry0 as <-.
    apply (dataset_counts
             (fun c => scan_count (arg_size_limit a)
                (length (listing (w_fs w1) (test_path (root_dir self1) c))))
             _ _ (fresh_object a root (PyInt (arg_size_limit a))) _ _ _
             eq_refl (folder_entry_below_256 _ _ Hentry) Hloop);
      [|exact Hc].
    intros c' s1 v1 s2 v2 (_ & Hroot1 & Htrain1 & _ & Hcap1) Hfs Hrun.
    cbn [fresh_object train size_per_class root_dir] in Hroot1, Htrain1, Hcap1.
    destruct (process_class_test c' (arg_size_limit a) s1 v1 s2 v2)
      as (imgs & Happ & Hlen & _); [congruence | exact Hcap1 | exact Hrun |].
    exists imgs. split; [exact Happ|].
    rewrite Hlen, Hfs, Hroot1, Hroot. reflexivity.
  - intros c s1 v1 s2 v2 (_ & _ & Htrain1 & _ & Hcap1) Hrun.
    apply (process_class_test c (arg_size_limit a) s1 v1 s2 v2);
      [congruence | congruence | exact Hrun].
Qed.

(** C3: when the limit is shared between the classes, the cap of the
    dataset is the float quotient [size_limit / len]; when that float is
    fractional no value of the integer counter equals it, so no scan stops
    early: every class ends with all the files of its eight partitions (of
    its test folder in test mode). *)
Theorem C3_fractional_cap_is_never_met a w w' self entry :
  arg_size_limit_per_class a = false ->
  folder_map_get (arg_data_type a) = Some entry ->
  construct a w = (w', Ok self) ->
  exists q,
    int_truediv (arg_size_limit a) (Z.of_nat (len entry)) = Ok q /\
    size_per_class self = PyFloat q /\
    (float_is_integer q = false ->
     (forall k : Z, int_eq k (size_per_class self) = false) /\
     forall c, (start entry <= c < start entry + len entry)%nat ->
       count_label (chr c) (targets self)
       = class_files (w_fs w') (root_dir self) (train self) c).
Proof.
  intros Hper Hentry. unfold construct.
  destruct (__init__ a w) as [w1 o] eqn:Hinit.
  destruct o as [self1|partial e]; intros [= <- <-].
  apply init_spec in Hinit
    as (entry0 & root & size & Hentry0 & _ & _ & Hsize & (Hcfg & _) & w2 & Hloop).
  rewrite Hentry in Hentry0. injection Hentry0 as <-.
  rewrite Hper in Hsize. destruct Hsize as (q & Hdiv & ->).
  destruct Hcfg as (_ & Hroot & Htrain & _ & Hcap).
  cbn [fresh_object train size_per_class root_dir] in Hroot, Htrain, Hcap.
  exists q. split; [exact Hdiv|]. split; [exact Hcap|].
  intros Hfrac. apply fractional_unreachable in Hfrac.
  split; [rewrite Hcap; exact Hfrac|].
  intros c Hc.
  apply (dataset_counts
           (fun c => class_files (w_fs w1) (root_dir self1) (train self1) c)
           _ _ (fresh_object a root (PyFloat q)) _ _ _
           eq_refl (folder_entry_below_256 _ _ Hentry) Hloop);
    [|exact Hc].
  intros c' s1 v1 s2 v2 (_ & Hroot1 & Htrain1 & _ & Hcap1) Hfs Hrun.
  cbn [fresh_object train size_per_class root_dir] in Hroot1, Htrain1, Hcap1.
  destruct (process_class_unbounded c' s1 v1 s2 v2)
    as (imgs & Happ & Hlen); [rewrite Hcap1; exact Hfrac | exact Hrun |].
  exists imgs. split; [exact Happ|].
  rewrite Hlen, Hfs, Hroot1, Hroot, Htrain1, Htrain. reflexivity.
Qed.


(** ** Saving and loading *)

Lemma fs_lookup_write p content fs :
  p <> "" -> dirname p <> p ->
  fs_lookup (fs_write p content fs) p = Some (File content).
Proof.
  intros Hp Hdir. apply String.eqb_neq in Hp.
  unfold fs_lookup at 1. rewrite Hp. unfold fs_write.
  destruct (fs_lookup fs (dirname p)) as [[es|c]|];
    [destruct (existsb (String.eqb (basename p)) es)| |];
    rewrite ?(lookup_insert_ne _ (dirname p) p) by exact Hdir;
    apply lookup_insert_eq.
Qed.

Lemma fs_lookup_some_nonempty fs p n : fs_lookup fs p = Some n -> p <> "".
Proof.
  unfold fs_lookup. destruct (String.eqb_spec p "") as [->|Hne];
    [discriminate | auto].
Qed.


(** Saving to a fresh path in an existing directory writes exactly what
    [compress_pickle.dump] produced. *)
Lemma save_new_file d filepath w es content :
  fs_lookup (w_fs w) (dirname filepath) = Some (Dir es) ->
  fs_exists (w_fs w) filepath = false ->
  compress_pickle_dump d = Ok content ->
  exists w1,
    save_to_file (ObjDataset d) filepath false w = (w1, Ok tt) /\
    w_fs w1 = fs_write filepath content (fs_write filepath [] (w_fs w)).
Proof.
  intros Hparent Hfresh Hdump.
  pose proof (fs_lookup_some_nonempty _ _ _ Hparent) as Hne.
  apply String.eqb_neq in Hne.
  assert (Hpexists : fs_exists (w_fs w) (dirname filepath) = true)
    by (unfold fs_exists; rewrite Hparent; reflexivity).
  assert (Hfile : fs_lookup (w_fs w) filepath = None).
  { unfold fs_exists in Hfresh.
    destruct (fs_lookup (w_fs w) filepath); [discriminate | reflexivity]. }
  cbv [save_to_file bind os_path_exists log modify get ret raise].
  cbn [w_fs w_stdin w_log]. rewrite Hpexists.
  cbn [negb w_fs w_stdin w_log]. rewrite Hfresh.
  cbv [open_wb bind log modify get ret raise set_fs file_write].
  cbn [w_fs w_stdin w_log]. rewrite Hfile, Hne, Hparent, Hdump.
  cbn [w_fs w_stdin w_log]. eexists. split; reflexivity.
Qed.

(** Loading reads the file back and hands it to [compress_pickle.load]. *)
Lemma load_existing_file filepath w content :
  fs_lookup (w_fs w) filepath = Some (File content) ->
  exists w1,
    load_from_file filepath w
    = (w1, match compress_pickle_load content with
           | Ok obj => Ok obj
           | Raise e => Raise e
           end) /\
    w_fs w1 = w_fs w.
Proof.
  intros Hfile.
  cbv [load_from_file bind os_path_exists open_rb_read log modify get ret raise].
  cbn [w_fs w_stdin w_log].
  replace (fs_exists (w_fs w) filepath) with true
    by (unfold fs_exists; rewrite Hfile; reflexivity).
  cbn [negb w_fs]. rewrite Hfile.
  destruct (compress_pickle_load content) as [obj|e]; eexists; split; reflexivity.
Qed.

(** C6, amended: for a dataset whose serialization succeeds and a path
    where no file exists yet and whose directory part names an existing
    directory, [save_to_file] writes exactly the bytes of
    [compress_pickle.dump] at the path, and [load_from_file] hands back what
    [compress_pickle.load] makes of them; when the library reads back what it
    wrote, that is a dataset of the same length with the same labels and the
    same images. *)
Theorem C6_save_then_load_round_trip d filepath w es content :
  fs_lookup (w_fs w) (dirname filepath) = Some (Dir es) ->
  fs_exists (w_fs w) filepath = false ->
  compress_pickle_dump d = Ok content ->
  exists w1 w2,
    save_to_file (ObjDataset d) filepath false w = (w1, Ok tt) /\
    fs_lookup (w_fs w1) filepath = Some (File content) /\
    load_from_file filepath w1
    = (w2, match compress_pickle_load content with
           | Ok obj => Ok obj
           | Raise e => Raise e
           end) /\
    ((forall d0 b, compress_pickle_dump d0 = Ok b ->
                   compress_pickle_load b = Ok (ObjDataset d0)) ->
     exists d',
       load_from_file filepath w1 = (w2, Ok (ObjDataset d')) /\
       __len__ d' = __len__ d /\ targets d' = targets d /\ data d' = data d).
Proof.
  intros Hparent Hfresh Hdump.
  assert (Hdir : dirname filepath <> filepath).
  { intros Heq. rewrite Heq in Hparent. unfold fs_exists in Hfresh.
    rewrite Hparent in Hfresh. discriminate. }
  assert (Hne : filepath <> "").
  { intros ->. apply fs_lookup_some_nonempty in Hparent. apply Hparent. reflexivity. }
  destruct (save_new_file d filepath w es content Hparent Hfresh Hdump)
    as (w1 & Hsave & Hfs1).
  assert (Hfile : fs_lookup (w_fs w1) filepath = Some (File content))
    by (rewrite Hfs1; apply fs_lookup_write; assumption).
  destruct (load_existing_file filepath w1 content Hfile) as (w2 & Hload & _).
  exists w1, w2. split; [exact Hsave|]. split; [exact Hfile|].
  split; [exact Hload|].
  intros Hround. rewrite (Hround d content Hdump) in Hload.
  exists d. repeat split. exact Hload.
Qed.


(** With an empty directory part the directory test fails, whatever the
    file system holds. *)
Lemma save_refuses_bare_name d filepath force_overwrite w :
  dirname filepath = "" ->
  exists w1,
    save_to_file (ObjDataset d) filepath force_overwrite w
    = (w1, Raise (RuntimeError (msg_no_folder ""))) /\
    same_disk w w1.
Proof.
  intros Hdir.
  cbv [save_to_file bind os_path_exists log modify get ret raise].
  cbn [w_fs w_stdin w_log]. rewrite Hdir.
  eexists. repeat split.
Qed.



End Properties.

(** * The claims on concrete runs *)

(** The snapshot codec of the demonstration reads back what it wrote. *)
Lemma demo_codec_round_trip known d0 b :
  Demo.dump_known known d0 = Ok b ->
  Demo.load_known known b = Ok (ObjDataset d0).
Proof.
  unfold Demo.dump_known, Demo.same_snapshot.
  destruct d0 as [dat tar dty roo tra [f|] siz];
    destruct known as [dat' tar' dty' roo' tra' [f'|] siz']; cbn;
    try discriminate.
  destruct (bool_decide _) eqn:Hsame; [|discriminate].
  apply bool_decide_eq_true in Hsame. injection Hsame as -> -> -> -> -> ->.
  intros [= <-]. reflexivity.
Qed.

(** C1 (the code falls short of the claim): with a per-class limit of 2 and
    class [0] holding one image in [hsf_0] and two in [hsf_1], construction
    succeeds and the dataset holds three samples of class [0].  The counter
    restarts at 0 in every partition, so the count is not cumulative. *)
Theorem C1_limit_is_not_cumulative :
  listing (w_fs Demo.train_world) (hsf_path "/data" 0x30 0) = ["a.png"] /\
  listing (w_fs Demo.train_world) (hsf_path "/data" 0x30 1) = ["b.png"; "c.png"] /\
  snd Demo.train_run = Ok (Demo.built Demo.train_run) /\
  size_per_class (Demo.built Demo.train_run) = PyInt 2 /\
  targets (Demo.built Demo.train_run) = ["0"; "0"; "0"] /\
  count_label (chr 0x30) (targets (Demo.built Demo.train_run)) = 3%nat.
Proof.
  split; [vm_compute; reflexivity|].
  split; [vm_compute; reflexivity|].
  split; [vm_compute; reflexivity|].
  split; [vm_compute; reflexivity|].
  split; [vm_compute; reflexivity|].
  vm_compute; reflexivity.
Qed.

(** C2 (counterexample): in test mode with a limit of 1, [train_30] holds
    two files and the dataset only one sample of class [0]: not every file
    of the directory is appended. *)
Lemma C2_counterexample :
  arg_train (Demo.test_args 1) = false /\
  listing (w_fs Demo.test_world) (test_path "/data" 0x30) = ["a.png"; "b.png"] /\
  snd Demo.test_run = Ok (Demo.built Demo.test_run) /\
  listing (w_fs (fst Demo.test_run)) (test_path "/data" 0x30) = ["a.png"; "b.png"] /\
  targets (Demo.built Demo.test_run) = ["0"] /\
  count_label (chr 0x30) (targets (Demo.built Demo.test_run)) = 1%nat /\
  count_label (chr 0x30) (targets (Demo.built Demo.test_run))
  <> length (listing (w_fs (fst Demo.test_run)) (test_path "/data" 0x30)).
Proof.
  split; [vm_compute; reflexivity|].
  split; [vm_compute; reflexivity|].
  split; [vm_compute; reflexivity|].
  split; [vm_compute; reflexivity|].
  split; [vm_compute; reflexivity|].
  assert (Hcount : count_label (chr 0x30) (targets (Demo.built Demo.test_run))
                   = 1%nat) by (vm_compute; reflexivity).
  assert (Hfiles : length (listing (w_fs (fst Demo.test_run))
                                   (test_path "/data" 0x30)) = 2%nat)
    by (vm_compute; reflexivity).
  split; [exact Hcount|]. rewrite Hcount, Hfiles. discriminate.
Qed.

(** C2, amended, on the test tree with a limit of 1: class [0] ends with
    [scan_count 1 2] samples. *)
Lemma C2_test_scan_witness :
  arg_train (Demo.test_args 1) = false /\
  arg_size_limit_per_class (Demo.test_args 1) = true /\
  @construct Demo.demo (Demo.test_args 1) Demo.test_world
  = (fst Demo.test_run, Ok (Demo.built Demo.test_run)) /\
  count_label (chr 0x30) (targets (Demo.built Demo.test_run))
  = scan_count 1
      (length (listing (w_fs (fst Demo.test_run))
                       (test_path (root_dir (Demo.built Demo.test_run)) 0x30))).
Proof.
  assert (Hrun : @construct Demo.demo (Demo.test_args 1) Demo.test_world
                 = (fst Demo.test_run, Ok (Demo.built Demo.test_run)))
    by (vm_compute; reflexivity).
  split; [reflexivity|]. split; [reflexivity|]. split; [exact Hrun|].
  apply (proj1 (@C2_test_scan_stops_at_the_limit Demo.demo
                  (Demo.test_args 1) Demo.test_world _ _ eq_refl eq_refl Hrun)
               {| start := 0x30; len := 10 |} 0x30%nat eq_refl).
  cbn. lia.
Defined.

(** C3 on the training tree with a limit of 5 shared between the ten digit
    classes: the cap is the float 0.5, no counter meets it, and class [0]
    ends with all three of its files. *)
Lemma C3_fractional_cap_witness :
  arg_size_limit_per_class (Demo.shared_args 5) = false /\
  folder_map_get (arg_data_type (Demo.shared_args 5))
  = Some {| start := 0x30; len := 10 |} /\
  @construct Demo.demo (Demo.shared_args 5) Demo.train_world
  = (fst Demo.shared_run, Ok (Demo.built Demo.shared_run)) /\
  exists q,
    int_truediv 5 10 = Ok q /\
    float_is_integer q = false /\
    size_per_class (Demo.built Demo.shared_run) = PyFloat q /\
    (forall k : Z, int_eq k (size_per_class (Demo.built Demo.shared_run)) = false) /\
    count_label (chr 0x30) (targets (Demo.built Demo.shared_run)) = 3%nat.
Proof.
  assert (Hrun : @construct Demo.demo (Demo.shared_args 5) Demo.train_world
                 = (fst Demo.shared_run, Ok (Demo.built Demo.shared_run)))
    by (vm_compute; reflexivity).
  split; [reflexivity|]. split; [reflexivity|]. split; [exact Hrun|].
  destruct (@C3_fractional_cap_is_never_met Demo.demo
              (Demo.shared_args 5) Demo.train_world _ _
              {| start := 0x30; len := 10 |} eq_refl eq_refl Hrun)
    as (q & Hdiv & Hcap & Hscan).
  exists q.
  split; [exact Hdiv|].
  assert (Hfrac : float_is_integer q = false).
  { assert (Hq : int_truediv 5 10 = Ok (S754_finite false 4503599627370496 (-53)))
      by (vm_compute; reflexivity).
    change (int_truediv 5 10 = Ok q) in Hdiv. rewrite Hq in Hdiv.
    injection Hdiv as <-. vm_compute. reflexivity. }
  destruct (Hscan Hfrac) as [Hnever Hall].
  split; [exact Hfrac|]. split; [exact Hcap|].
  split; [exact Hnever|].
  rewrite (Hall 0x30%nat) by (cbn; lia). vm_compute. reflexivity.
Defined.

(** C5 on the training run: the label [0] is the character of code 0x30. *)
Lemma C5_labels_witness :
  @construct Demo.demo (Demo.train_args 2) Demo.train_world
  = (fst Demo.train_run, Ok (Demo.built Demo.train_run)) /\
  In "0" (targets (Demo.built Demo.train_run)) /\
  exists c,
    "0" = chr c /\ ord "0" = Some c /\
    ((arg_data_type (Demo.train_args 2) = Some "digits" /\ (0x30 <= c < 0x3A)%nat) \/
     (arg_data_type (Demo.train_args 2) = Some "cap_letters" /\ (0x41 <= c < 0x5B)%nat) \/
     (arg_data_type (Demo.train_args 2) = Some "low_letters" /\ (0x61 <= c < 0x7B)%nat)).
Proof.
  assert (Hrun : @construct Demo.demo (Demo.train_args 2) Demo.train_world
                 = (fst Demo.train_run, Ok (Demo.built Demo.train_run)))
    by (vm_compute; reflexivity).
  assert (Hin : In "0" (targets (Demo.built Demo.train_run)))
    by (vm_compute; left; reflexivity).
  split; [exact Hrun|]. split; [exact Hin|].
  exact (@C5_labels_lie_in_the_class_range Demo.demo
           (Demo.train_args 2) Demo.train_world _ _ Hrun "0" Hin).
Defined.

(** The serializer of [Pickler] reads back what it wrote. *)
Lemma float_fields_round_trip f :
  Pickler.float_of_fields (Pickler.float_to_fields f) = f.
Proof. destruct f; reflexivity. Qed.

Lemma dataset_fields_round_trip d :
  transform d = None -> Pickler.dataset_of (Pickler.fields_of d) = d.
Proof.
  destruct d as [dat tar dty roo tra tf siz]. cbn. intros ->. f_equal.
  - induction dat as [|[sh px] dat IH]; [reflexivity|].
    cbn [map fst snd shape pixels]. rewrite IH. reflexivity.
  - destruct siz as [z|f]; [reflexivity|]. rewrite float_fields_round_trip.
    reflexivity.
Qed.

Lemma bytes_round_trip p :
  Pickler.bytes_to_pos (Pickler.pos_to_bytes p) = Some p.
Proof.
  induction p as [p IH|p IH|]; cbn [Pickler.pos_to_bytes Pickler.bytes_to_pos];
    rewrite ?IH; reflexivity.
Qed.

Lemma pickler_round_trip d0 b :
  Pickler.dump d0 = Ok b -> Pickler.load b = Ok (ObjDataset d0).
Proof.
  unfold Pickler.dump, Pickler.load.
  destruct (transform d0) as [f|] eqn:Htf; [discriminate|].
  intros [= <-]. rewrite bytes_round_trip. cbn [mbind option_bind].
  rewrite decode_encode, dataset_fields_round_trip by exact Htf. reflexivity.
Qed.

Lemma plain_run_built :
  @construct Pickler.collab (Demo.train_args 2) Demo.train_world
  = (Pickler.plain_after, Ok Pickler.plain_self).
Proof. vm_compute. reflexivity. Qed.

Lemma transform_run_built :
  @construct Pickler.collab Pickler.transform_args Demo.train_world
  = (Pickler.transform_after, Ok Pickler.transform_self).
Proof. vm_compute. reflexivity. Qed.

(** C6 (counterexample): a dataset built with a lambda for transform,
    which the serializer refuses as pickle refuses a lambda.  The directory of the path exists and no
    file is at the path, yet the save raises, and loading the file it left
    behind gives no dataset. *)
Lemma C6_counterexample :
  @construct Pickler.collab Pickler.transform_args Demo.train_world
  = (Pickler.transform_after, Ok Pickler.transform_self) /\
  __len__ Pickler.transform_self = 3%nat /\
  fs_lookup (w_fs Pickler.transform_after) (dirname "/data/snapshot.lzma")
  = Some (Dir ["by_class.zip"; "by_class"]) /\
  fs_exists (w_fs Pickler.transform_after) "/data/snapshot.lzma" = false /\
  snd (@save_to_file Pickler.collab (ObjDataset Pickler.transform_self)
         "/data/snapshot.lzma" false Pickler.transform_after)
  = Raise (PickleError "cannot pickle a function") /\
  snd (@load_from_file Pickler.collab "/data/snapshot.lzma"
         (fst (@save_to_file Pickler.collab (ObjDataset Pickler.transform_self)
                 "/data/snapshot.lzma" false Pickler.transform_after)))
  = Raise (PickleError "invalid snapshot").
Proof.
  split; [exact transform_run_built|].
  split; [vm_compute; reflexivity|].
  split; [vm_compute; reflexivity|].
  split; [vm_compute; reflexivity|].
  split; [vm_compute; reflexivity|].
  vm_compute; reflexivity.
Qed.

(** C6, amended, on the three samples of the training run, saved next to
    the archive and read back through the serializer of [Pickler]. *)
Lemma C6_round_trip_witness :
  fs_lookup (w_fs Pickler.plain_after) (dirname "/data/snapshot.lzma")
  = Some (Dir ["by_class.zip"; "by_class"]) /\
  fs_exists (w_fs Pickler.plain_after) "/data/snapshot.lzma" = false /\
  @compress_pickle_dump Pickler.collab Pickler.plain_self
  = Ok Pickler.plain_bytes /\
  __len__ Pickler.plain_self = 3%nat /\
  exists w1 w2 d',
    @save_to_file Pickler.collab (ObjDataset Pickler.plain_self)
                  "/data/snapshot.lzma" false Pickler.plain_after = (w1, Ok tt) /\
    fs_lookup (w_fs w1) "/data/snapshot.lzma" = Some (File Pickler.plain_bytes) /\
    @load_from_file Pickler.collab "/data/snapshot.lzma" w1
    = (w2, Ok (ObjDataset d')) /\
    __len__ d' = __len__ Pickler.plain_self /\
    targets d' = targets Pickler.plain_self /\
    data d' = data Pickler.plain_self.
Proof.
  assert (Hparent : fs_lookup (w_fs Pickler.plain_after)
                      (dirname "/data/snapshot.lzma")
                    = Some (Dir ["by_class.zip"; "by_class"]))
    by (vm_compute; reflexivity).
  assert (Hfresh : fs_exists (w_fs Pickler.plain_after) "/data/snapshot.lzma"
                   = false) by (vm_compute; reflexivity).
  assert (Hdump : @compress_pickle_dump Pickler.collab Pickler.plain_self
                  = Ok Pickler.plain_bytes) by (vm_compute; reflexivity).
  split; [exact Hparent|]. split; [exact Hfresh|]. split; [exact Hdump|].
  split; [vm_compute; reflexivity|].
  destruct (@C6_save_then_load_round_trip Pickler.collab Pickler.plain_self
              "/data/snapshot.lzma" Pickler.plain_after
              ["by_class.zip"; "by_class"] Pickler.plain_bytes
              Hparent Hfresh Hdump)
    as (w1 & w2 & Hsave & Hfile & _ & Hround).
  destruct (Hround pickler_round_trip) as (d' & Hload & Hlen & Htargets & Hdata).
  exists w1, w2, d'. auto 10.
Defined.

(** C8 with every argument left at its default: [data_type] is omitted. *)
Lemma C8_unknown_data_type_witness :
  arg_data_type default_args = None /\
  @__init__ Demo.demo default_args Demo.train_world
  = (Demo.train_world, Failed None (RuntimeError msg_data_type)) /\
  @construct Demo.demo default_args Demo.train_world
  = (Demo.train_world, Raise (RuntimeError msg_data_type)) /\
  is_configuration_error (RuntimeError msg_data_type).
Proof.
  split; [reflexivity|].
  exact (@C8_unknown_data_type_is_refused_first Demo.demo default_args
           Demo.train_world (or_introl eq_refl)).
Defined.



(** C7 (the code falls short of the claim): a snapshot saved under a bare
    file name, [snapshot.lzma], exists.  Saving to it again without
    [force_overwrite] leaves the file as it is but does not return
    normally: the directory part of the name is empty, the directory test
    fails, and a [RuntimeError] is raised instead of the warning. *)
Theorem C7_bare_file_name_is_refused :
  fs_lookup (w_fs Demo.cwd_world) "snapshot.lzma" = Some (File [x01]) /\
  dirname "snapshot.lzma" = "" /\
  exists w',
    @save_to_file Demo.demo (ObjDataset Demo.empty_dataset) "snapshot.lzma"
                  false Demo.cwd_world
    = (w', Raise (RuntimeError "Folder  does not exist")) /\
    w_fs w' = w_fs Demo.cwd_world /\
    w_log w' = [EvExists ""].
Proof.
  split; [vm_compute; reflexivity|]. split; [reflexivity|].
  eexists. split; [vm_compute; reflexivity|]. split; reflexivity.
Qed.

(** * More of the code *)

Section Sampling.
Context `{Collaborators}.

(** ** Caps and the counter *)

Lemma float_int_value_meets q limit :
  float_int_value q = Some limit ->
  forall k : Z, int_eq_float k q = (k =? limit).
Proof.
  destruct q as [s|s| |s m e]; cbn; try discriminate.
  - intros [= <-] k. reflexivity.
  - destruct (0 <=? e) eqn:He.
    + intros [= <-] k. reflexivity.
    + apply Z.leb_gt in He.
      assert (Hpow : 0 < 2 ^ (- e)) by (apply Z.pow_pos_nonneg; lia).
      destruct (Z.pos m mod 2 ^ (- e) =? 0) eqn:Hdiv; [|discriminate].
      apply Z.eqb_eq in Hdiv. intros [= <-] k.
      set (p := 2 ^ (- e)) in *.
      set (sm := if s then Z.neg m else Z.pos m).
      assert (Hsm : sm = p * (sm / p)).
      { apply Z_div_exact_full_2; [lia|]. subst sm.
        destruct s; [|exact Hdiv].
        change (Z.neg m) with (- Z.pos m).
        apply Z.mod_opp_l_z; [lia | exact Hdiv]. }
      destruct (Z.eqb_spec k (sm / p)) as [->|Hne].
      * apply Z.eqb_eq. lia.
      * apply Z.eqb_neq. intros Heq. apply Hne. nia.
Qed.

Lemma float_int_value_none q :
  float_int_value q = None -> unreachable (PyFloat q).
Proof.
  intros Hnone. apply fractional_unreachable.
  destruct q as [s|s| |s m e]; cbn in *; try reflexivity; try discriminate.
  destruct (0 <=? e); [discriminate|].
  destruct (Z.pos m mod 2 ^ (- e) =? 0); [discriminate | reflexivity].
Qed.

Lemma cap_int_value_meets cap limit :
  cap_int_value cap = Some limit ->
  forall k : Z, int_eq k cap = (k =? limit).
Proof.
  destruct cap as [z|q]; cbn.
  - intros [= <-] k. reflexivity.
  - apply float_int_value_meets.
Qed.

Lemma cap_int_value_none cap : cap_int_value cap = None -> unreachable cap.
Proof.
  destruct cap as [z|q]; cbn; [discriminate | apply float_int_value_none].
Qed.

(** ** One directory, counter at 0 *)

Lemma scan_count_hit limit n :
  (1 <= limit <= Z.of_nat n) -> scan_count limit n = Z.to_nat limit.
Proof.
  intros Hl. unfold scan_count.
  replace ((1 <=? limit) && (limit <=? Z.of_nat n))%bool with true; [reflexivity|].
  symmetry. apply andb_true_iff. split; apply Z.leb_le; lia.
Qed.

Lemma scan_count_miss limit n :
  ~ (1 <= limit <= Z.of_nat n) -> scan_count limit n = n.
Proof.
  intros Hl. unfold scan_count.
  replace ((1 <=? limit) && (limit <=? Z.of_nat n))%bool with false; [reflexivity|].
  symmetry. apply andb_false_iff.
  destruct (Z.leb_spec 1 limit); [|left; reflexivity].
  right. apply Z.leb_gt. lia.
Qed.

(** A scan that starts with the counter at 0 under a cap met by [limit]
    only: it takes [scan_count] files, the first ones listed, and returns 1
    exactly when it stopped at the cap. *)
Lemma add_samples_from_zero dir t limit self w self' w' v :
  (forall k : Z, int_eq k (size_per_class self) = (k =? limit)) ->
  _add_samples_from_dir (Some dir) (Some t) 0 (self, w) = ((self', w'), Ok v) ->
  exists imgs,
    appended t imgs self self' /\
    length imgs = scan_count limit (length (listing (w_fs w) dir)) /\
    decoded (w_fs w) dir (take (length imgs) (listing (w_fs w) dir)) imgs /\
    ((v = 1 /\ 1 <= limit <= Z.of_nat (length (listing (w_fs w) dir))) \/
     (v = 0 /\ ~ (1 <= limit <= Z.of_nat (length (listing (w_fs w) dir))))).
Proof.
  intros Hcap Hrun.
  apply add_samples_from_dir_spec in Hrun as (_ & imgs & Happ & Hdec & _ & Hres).
  exists imgs. split; [exact Happ|].
  destruct Hres as [(-> & Hlen & Hhit) | (-> & Hlen & Hmiss)].
  - rewrite Hcap in Hhit. apply Z.eqb_eq in Hhit.
    assert (Hl : 1 <= limit <= Z.of_nat (length (listing (w_fs w) dir))) by lia.
    rewrite (scan_count_hit _ _ Hl). split; [lia|]. split; [exact Hdec|].
    left. auto.
  - assert (Hl : ~ (1 <= limit <= Z.of_nat (length (listing (w_fs w) dir)))).
    { intros Hl. specialize (Hmiss (Z.to_nat limit) ltac:(lia)).
      rewrite Hcap in Hmiss. apply Z.eqb_neq in Hmiss. lia. }
    rewrite (scan_count_miss _ _ Hl). split; [exact Hlen|]. split; [exact Hdec|].
    right. auto.
Qed.

(** ** The partitions of a class *)

Lemma hsf_loop_counted c folder limit idxs : forall self w self' w',
  (forall k : Z, int_eq k (size_per_class self) = (k =? limit)) ->
  hsf_loop c folder idxs 0 (self, w) = ((self', w'), Ok tt) ->
  exists imgs,
    appended (chr c) imgs self self' /\
    length imgs =
    train_count limit
      (map (fun i => length (listing (w_fs w)
              (join (root_dir self) ["by_class"; folder; "hsf_" +:+ str i])))
           idxs).
Proof.
  induction idxs as [|i idxs IH]; intros self w self' w' Hcap Hrun.
  - injection Hrun as <- <-. exists []. split; [apply appended_refl | reflexivity].
  - rewrite hsf_loop_cons, bind_get_self in Hrun.
    apply bind_inv in Hrun as [(s1 & v & Hdir & Hrest) | (e & _ & [=])].
    destruct s1 as [self1 w1].
    pose proof (add_samples_from_dir_spec _ _ _ _ _ _ _ _ Hdir) as ([Hfs _] & _).
    apply (add_samples_from_zero _ _ limit) in Hdir
      as (imgs & Happ & Hlen & _ & Hres); [|exact Hcap].
    cbn [map train_count].
    destruct Hres as [(-> & Hl) | (-> & Hl)]; cbn [Z.eqb] in Hrest.
    + injection Hrest as <- <-. exists imgs. split; [exact Happ|].
      rewrite Hlen. unfold scan_count.
      destruct ((1 <=? limit) && (limit <=? _))%bool eqn:Hb; [reflexivity|].
      apply andb_false_iff in Hb as [Hb|Hb];
        [apply Z.leb_gt in Hb | apply Z.leb_gt in Hb]; lia.
    + destruct Happ as (Hcfg & Hdata & Htargets).
      pose proof Hcfg as (_ & Hroot & _ & _ & Hsize).
      apply IH in Hrest as (imgs' & Happ' & Hlen');
        [|intros k; rewrite Hsize; apply Hcap].
      exists (imgs ++ imgs').
      split; [eapply appended_trans; [split; eauto | exact Happ']|].
      rewrite length_app, Hlen, Hlen', Hroot, Hfs, (scan_count_miss _ _ Hl).
      destruct ((1 <=? limit) && (limit <=? _))%bool eqn:Hb; [|reflexivity].
      apply andb_true_iff in Hb as [Hb1 Hb2].
      apply Z.leb_le in Hb1, Hb2. lia.
Qed.

(** A class under a cap met by [limit] only. *)
Lemma process_class_counted c limit self w self' w' :
  (forall k : Z, int_eq k (size_per_class self) = (k =? limit)) ->
  process_class c (self, w) = ((self', w'), Ok tt) ->
  exists imgs,
    appended (chr c) imgs self self' /\
    length imgs = class_count (w_fs w) (root_dir self) (train self) limit c.
Proof.
  intros Hcap. unfold process_class, class_count. rewrite bind_get_self.
  destruct (train self).
  - intros Hrun. apply (hsf_loop_counted _ _ limit) in Hrun; [exact Hrun | exact Hcap].
  - intros Hrun.
    apply bind_inv in Hrun as [(s1 & v & Hdir & Hrest) | (e & _ & [=])].
    destruct s1 as [self1 w1]. injection Hrest as <- <-.
    apply (add_samples_from_zero _ _ limit) in Hdir
      as (imgs & Happ & Hlen & _); [|exact Hcap].
    exists imgs. split; [exact Happ | exact Hlen].
Qed.

(** ** The whole walk *)

Lemma for_each_classes_runs classes : forall self w self' w',
  for_each classes process_class (self, w) = ((self', w'), Ok tt) ->
  forall c, In c classes ->
  exists s1 v1 s2 v2,
    same_config self s1 /\ w_fs v1 = w_fs w /\
    process_class c (s1, v1) = ((s2, v2), Ok tt).
Proof.
  induction classes as [|c0 classes IH]; intros self w self' w' Hrun c Hin;
    [destruct Hin|].
  cbn [for_each] in Hrun.
  apply bind_inv in Hrun as [(s1 & [] & Hc & Hrest) | (e & _ & [=])].
  destruct s1 as [self1 w1].
  destruct Hin as [<-|Hin].
  - exists self, w, self1, w1. split; [apply same_config_refl|]. auto.
  - pose proof (process_class_spec _ _ _ _ _ _ Hc) as ([Hfs _] & imgs & Hcfg & _).
    destruct (IH _ _ _ _ Hrest c Hin) as (s1 & v1 & s2 & v2 & Hcfg1 & Hfs1 & Hrun1).
    exists s1, v1, s2, v2.
    split; [eapply same_config_trans; eauto|]. split; [congruence | exact Hrun1].
Qed.

Lemma process_class_walk c self w self' w' :
  process_class c (self, w) = ((self', w'), Ok tt) ->
  exists imgs,
    appended (chr c) imgs self self' /\ length imgs = walk_count (w_fs w) self c.
Proof.
  unfold walk_count.
  destruct (cap_int_value (size_per_class self)) as [limit|] eqn:Hcap; intros Hrun.
  - eapply (process_class_counted c limit); [|exact Hrun].
    apply cap_int_value_meets. exact Hcap.
  - eapply process_class_unbounded; [|exact Hrun].
    apply cap_int_value_none. exact Hcap.
Qed.

Lemma walk_count_config fs s1 s2 c :
  same_config s1 s2 -> walk_count fs s2 c = walk_count fs s1 c.
Proof.
  intros (_ & Hroot & Htrain & _ & Hsize). unfold walk_count.
  rewrite Hroot, Htrain, Hsize. reflexivity.
Qed.

(** The run of the class loop behind a built dataset. *)
Lemma built_dataset_walk a w w' self :
  construct a w = (w', Ok self) ->
  exists entry self0 w1,
    folder_map_get (arg_data_type a) = Some entry /\
    targets self0 = [] /\ data self0 = [] /\ same_config self0 self /\
    w_fs w1 = w_fs w' /\
    for_each (seq (start entry) (len entry)) process_class (self0, w1)
    = ((self, w'), Ok tt).
Proof.
  unfold construct. destruct (__init__ a w) as [w2 o] eqn:Hinit.
  destruct o as [self1|partial e]; intros [= <- <-].
  apply init_spec in Hinit
    as (entry & root & size & Hentry & _ & _ & _ & (Hcfg & _) & w1 & Hloop).
  pose proof (for_each_classes_spec _ _ _ _ _ _ Hloop) as ([Hfs _] & _).
  exists entry, (fresh_object a root size), w1. auto 10.
Qed.

(** The labels behind a built dataset: one block per class, in the order
    of the class loop. *)
Lemma built_labels a w w' self entry :
  construct a w = (w', Ok self) ->
  folder_map_get (arg_data_type a) = Some entry ->
  targets self =
  concat (map (fun c => replicate (walk_count (w_fs w') self c) (chr c))
              (seq (start entry) (len entry))).
Proof.
  intros Hbuilt Hentry.
  destruct (built_dataset_walk _ _ _ _ Hbuilt)
    as (entry0 & self0 & w1 & Hentry0 & Hempty & _ & Hcfg & Hfs & Hloop).
  rewrite Hentry in Hentry0. injection Hentry0 as <-.
  assert (Hbody : forall c s1 v1 s2 v2,
    In c (seq (start entry) (len entry)) -> same_config self0 s1 ->
    w_fs v1 = w_fs w1 ->
    process_class c (s1, v1) = ((s2, v2), Ok tt) ->
    exists imgs,
      appended (chr c) imgs s1 s2 /\ length imgs = walk_count (w_fs w') self c).
  { intros c s1 v1 s2 v2 _ Hcfg1 Hv1 Hrun.
    destruct (process_class_walk _ _ _ _ _ Hrun) as (imgs & Happ & Hlen).
    exists imgs. split; [exact Happ|].
    rewrite Hlen, Hv1, Hfs.
    transitivity (walk_count (w_fs w') self0 c);
      [|symmetry]; apply walk_count_config; assumption. }
  rewrite (for_each_classes_counts (walk_count (w_fs w') self) self0 w1 _ _ _ _ _
             (same_config_refl self0) eq_refl Hbody Hloop).
  rewrite Hempty. reflexivity.
Qed.

Lemma count_in_blocks (f : nat -> nat) dt entry c :
  folder_map_get dt = Some entry ->
  (start entry <= c < start entry + len entry)%nat ->
  count_label (chr c)
    (concat (map (fun c' => replicate (f c') (chr c'))
                 (seq (start entry) (len entry)))) = f c.
Proof.
  intros Hentry Hc. pose proof (folder_entry_below_256 _ _ Hentry) as Hlt.
  apply count_label_classes.
  - apply NoDup_seq.
  - intros c' Hc'. apply in_seq in Hc'. lia.
  - apply in_seq. lia.
Qed.

Lemma length_blocks (f : nat -> nat) classes :
  length (concat (map (fun c => replicate (f c) (chr c)) classes))
  = sum_list (map f classes).
Proof.
  induction classes as [|c classes IH]; [reflexivity|].
  cbn [map concat]. rewrite length_app, length_replicate, IH. reflexivity.
Qed.

Lemma built_dataset_balanced a w w' self :
  construct a w = (w', Ok self) -> length (data self) = length (targets self).
Proof.
  unfold construct. destruct (__init__ a w) as [w2 o] eqn:Hinit.
  destruct o as [self1|partial e]; intros [= <- <-].
  apply init_spec in Hinit
    as (entry & root & size & _ & _ & _ & _ & Hgrown & _).
  apply grown_balanced in Hgrown; [exact Hgrown | reflexivity].
Qed.

(** X1: the labels of a built dataset come class after class, in ascending
    class code, each class as one block whose size the walk determines; the
    length of the dataset is the sum of the block sizes. *)
Theorem labels_of_built_dataset a w w' self entry :
  construct a w = (w', Ok self) ->
  folder_map_get (arg_data_type a) = Some entry ->
  targets self =
  concat (map (fun c => replicate (walk_count (w_fs w') self c) (chr c))
              (seq (start entry) (len entry))) /\
  __len__ self
  = sum_list (map (walk_count (w_fs w') self) (seq (start entry) (len entry))).
Proof.
  intros Hbuilt Hentry.
  pose proof (built_labels _ _ _ _ _ Hbuilt Hentry) as Hlabels.
  split; [exact Hlabels|].
  unfold __len__. rewrite (built_dataset_balanced _ _ _ _ Hbuilt), Hlabels.
  apply length_blocks.
Qed.

(** X2: in a built dataset the number of samples of a class of the range is
    what the walk takes from the folders of that class.  With a cap that
    equals the integer [L], the partitions are taken in order: a partition
    that lists [n] files gives [L] of them and ends the class when
    [1 <= L <= n], and gives all [n] and lets the walk go on otherwise (so
    with [L <= 0] every file is taken); in test mode the test folder gives
    [L] files when [1 <= L <= n] and all [n] otherwise.  With a cap no
    integer equals, everything is taken. *)
Theorem class_count_of_built_dataset a w w' self entry c :
  construct a w = (w', Ok self) ->
  folder_map_get (arg_data_type a) = Some entry ->
  (start entry <= c < start entry + len entry)%nat ->
  count_label (chr c) (targets self)
  = match cap_int_value (size_per_class self) with
    | Some limit =>
        if train self
        then train_count limit
               (map (fun i => length (listing (w_fs w')
                                 (hsf_path (root_dir self) c i))) (seq 0 8))
        else scan_count limit
               (length (listing (w_fs w') (test_path (root_dir self) c)))
    | None => class_files (w_fs w') (root_dir self) (train self) c
    end.
Proof.
  intros Hbuilt Hentry Hc.
  rewrite (built_labels _ _ _ _ _ Hbuilt Hentry).
  rewrite (count_in_blocks _ _ _ _ Hentry Hc). reflexivity.
Qed.

(** ** What the limit does and does not bound *)

Lemma train_count_bounds limit ns :
  1 <= limit ->
  Z.of_nat (train_count limit ns) <= Z.of_nat (length ns) * (limit - 1) + 1 /\
  (train_count limit ns <= sum_list ns)%nat /\
  Z.min limit (Z.of_nat (sum_list ns)) <= Z.of_nat (train_count limit ns).
Proof.
  intros Hl. induction ns as [|n ns (IH1 & IH2 & IH3)]; [cbn; lia|].
  cbn [train_count length].
  change (sum_list (n :: ns)) with (n + sum_list ns)%nat.
  destruct ((1 <=? limit) && (limit <=? Z.of_nat n))%bool eqn:Hb.
  - apply andb_true_iff in Hb as [_ Hb]. apply Z.leb_le in Hb.
    repeat split; try lia; nia.
  - apply andb_false_iff in Hb as [Hb|Hb]; apply Z.leb_gt in Hb; [lia|].
    repeat split; try lia; nia.
Qed.

Lemma train_count_without_hit limit ns :
  Forall (fun n => ~ (1 <= limit <= Z.of_nat n)) ns ->
  train_count limit ns = sum_list ns.
Proof.
  induction 1 as [|n ns Hn _ IH]; [reflexivity|].
  cbn [train_count]. change (sum_list (n :: ns)) with (n + sum_list ns)%nat.
  destruct ((1 <=? limit) && (limit <=? Z.of_nat n))%bool eqn:Hb.
  - apply andb_true_iff in Hb as [Hb1 Hb2]. apply Z.leb_le in Hb1, Hb2. lia.
  - rewrite IH. reflexivity.
Qed.

Lemma class_count_without_hit fs root train limit c :
  limit < 1 ->
  class_count fs root train limit c = class_files fs root train c.
Proof.
  intros Hl. unfold class_count, class_files. destruct train.
  - apply train_count_without_hit. apply Forall_forall. intros n _. lia.
  - apply scan_count_miss. lia.
Qed.

(** What a built dataset keeps of the arguments it was built with. *)
Lemma built_dataset_config a w w' self :
  construct a w = (w', Ok self) ->
  data_type self = arg_data_type a /\
  train self = arg_train a /\
  transform self = arg_transform a /\
  (exists root, arg_root_dir a = Some root /\ root_dir self = expanduser root /\
                fs_exists (w_fs w) (expanduser root) = true) /\
  (exists entry, folder_map_get (arg_data_type a) = Some entry /\
     if arg_size_limit_per_class a
     then size_per_class self = PyInt (arg_size_limit a)
     else exists q,
            int_truediv (arg_size_limit a) (Z.of_nat (len entry)) = Ok q /\
            size_per_class self = PyFloat q).
Proof.
  unfold construct. destruct (__init__ a w) as [w2 o] eqn:Hinit.
  destruct o as [self1|partial e]; intros [= <- <-].
  apply init_spec in Hinit
    as (entry & root & size & Hentry & Hroot & Hexists & Hsize & (Hcfg & _) & _).
  destruct Hcfg as (Hdt & Hrd & Htr & Htf & Hsz).
  cbn [fresh_object data_type root_dir train transform size_per_class] in *.
  split; [exact Hdt|]. split; [exact Htr|]. split; [exact Htf|].
  split; [exists root; auto|].
  exists entry. split; [exact Hentry|].
  destruct (arg_size_limit_per_class a).
  - congruence.
  - destruct Hsize as (q & Hq & ->). eauto.
Qed.

(** X3: in training mode with an integer per-class limit [L >= 1] the limit
    is neither exact nor an upper bound.  A class ends with at least
    [min L total] samples, at most [8 L - 7], and never more than the files
    it has. *)
Theorem train_limit_bounds a w w' self entry c :
  construct a w = (w', Ok self) ->
  arg_train a = true ->
  arg_size_limit_per_class a = true ->
  1 <= arg_size_limit a ->
  folder_map_get (arg_data_type a) = Some entry ->
  (start entry <= c < start entry + len entry)%nat ->
  Z.min (arg_size_limit a)
        (Z.of_nat (class_files (w_fs w') (root_dir self) true c))
  <= Z.of_nat (count_label (chr c) (targets self))
  <= 8 * arg_size_limit a - 7 /\
  (count_label (chr c) (targets self)
   <= class_files (w_fs w') (root_dir self) true c)%nat.
Proof.
  intros Hbuilt Htrain Hper Hl Hentry Hc.
  rewrite (built_labels _ _ _ _ _ Hbuilt Hentry).
  rewrite (count_in_blocks _ _ _ _ Hentry Hc).
  destruct (built_dataset_config _ _ _ _ Hbuilt)
    as (_ & Htr & _ & _ & entry0 & _ & Hsize).
  rewrite Hper in Hsize. unfold walk_count. rewrite Hsize, Htr, Htrain.
  cbn [cap_int_value]. unfold class_count, class_files.
  set (ns := map _ (seq 0 8)).
  destruct (train_count_bounds (arg_size_limit a) ns Hl) as (Hup & Hle & Hlow).
  assert (Hlen : length ns = 8%nat) by reflexivity.
  rewrite Hlen in Hup. lia.
Qed.

(** X4: an integer per-class limit of 0 or less limits nothing: every class
    of a built dataset holds all the files of its folders, in training mode
    and in test mode. *)
Theorem nonpositive_limit_takes_everything a w w' self entry c :
  construct a w = (w', Ok self) ->
  arg_size_limit_per_class a = true ->
  arg_size_limit a <= 0 ->
  folder_map_get (arg_data_type a) = Some entry ->
  (start entry <= c < start entry + len entry)%nat ->
  count_label (chr c) (targets self)
  = class_files (w_fs w') (root_dir self) (train self) c.
Proof.
  intros Hbuilt Hper Hl Hentry Hc.
  rewrite (built_labels _ _ _ _ _ Hbuilt Hentry).
  rewrite (count_in_blocks _ _ _ _ Hentry Hc).
  destruct (built_dataset_config _ _ _ _ Hbuilt)
    as (_ & _ & _ & _ & entry0 & _ & Hsize).
  rewrite Hper in Hsize. unfold walk_count. rewrite Hsize.
  cbn [cap_int_value]. apply class_count_without_hit. lia.
Qed.

(** ** Folders a successful walk needs *)

Lemma add_samples_ok_dir dir t k self w self' w' v :
  _add_samples_from_dir (Some dir) (Some t) k (self, w) = ((self', w'), Ok v) ->
  exists es, fs_lookup (w_fs w) dir = Some (Dir es).
Proof.
  unfold _add_samples_from_dir. intros Hrun.
  apply bind_inv in Hrun as [(s1 & names & Hls & _) | (e & _ & [=])].
  destruct s1 as [self1 w1]. apply lift_io_inv in Hls as [_ Hls].
  apply os_listdir_spec in Hls as [_ Hnames]. eauto.
Qed.

Lemma process_class_ok_dir c self w self' w' :
  process_class c (self, w) = ((self', w'), Ok tt) ->
  exists es,
    fs_lookup (w_fs w)
      (if train self then hsf_path (root_dir self) c 0
       else test_path (root_dir self) c) = Some (Dir es).
Proof.
  unfold process_class. rewrite bind_get_self. destruct (train self); intros Hrun.
  - change (seq 0 8) with (0%nat :: seq 1 7) in Hrun.
    rewrite hsf_loop_cons, bind_get_self in Hrun.
    apply bind_inv in Hrun as [(s1 & v & Hdir & _) | (e & _ & [=])].
    destruct s1 as [self1 w1]. apply add_samples_ok_dir in Hdir. exact Hdir.
  - apply bind_inv in Hrun as [(s1 & v & Hdir & _) | (e & _ & [=])].
    destruct s1 as [self1 w1]. apply add_samples_ok_dir in Hdir. exact Hdir.
Qed.

(** X5: construction succeeds only if every class of the range has its
    folder: in test mode [train_<hex>], in training mode the first
    partition [hsf_0], is an existing directory when construction ends. *)
Theorem built_dataset_has_class_folders a w w' self entry c :
  construct a w = (w', Ok self) ->
  folder_map_get (arg_data_type a) = Some entry ->
  (start entry <= c < start entry + len entry)%nat ->
  exists es,
    fs_lookup (w_fs w')
      (if train self then hsf_path (root_dir self) c 0
       else test_path (root_dir self) c) = Some (Dir es).
Proof.
  intros Hbuilt Hentry Hc.
  destruct (built_dataset_walk _ _ _ _ Hbuilt)
    as (entry0 & self0 & w1 & Hentry0 & _ & _ & Hcfg & Hfs & Hloop).
  rewrite Hentry in Hentry0. injection Hentry0 as <-.
  destruct (for_each_classes_runs _ _ _ _ _ Hloop c)
    as (s1 & v1 & s2 & v2 & Hcfg1 & Hv1 & Hrun); [apply in_seq; lia|].
  apply process_class_ok_dir in Hrun as (es & Hes).
  destruct Hcfg as (_ & Hroot & Htrain & _), Hcfg1 as (_ & Hroot1 & Htrain1 & _).
  exists es. rewrite <- Hes, Hv1, Hfs, Hroot1, Htrain1, Hroot, Htrain. reflexivity.
Qed.

End Sampling.

(** ** Indexing a dataset *)

Section Indexing.
Context `{Collaborators}.
Variable fromarray : ndarray -> result ndarray.

(** The position a Python index names in a list of [n] elements. *)
Lemma py_index_in_range {A} (l : list A) idx :
  - Z.of_nat (length l) <= idx < Z.of_nat (length l) ->
  let pos := Z.to_nat (if idx <? 0 then idx + Z.of_nat (length l) else idx) in
  (pos < length l)%nat /\ py_index l idx = l !! pos.
Proof.
  intros Hidx pos. unfold py_index. subst pos.
  destruct (Z.ltb_spec idx 0).
  - replace ((0 <=? _) && (_ <? _))%bool with true; [split; [lia | reflexivity]|].
    symmetry. apply andb_true_iff. split; [apply Z.leb_le | apply Z.ltb_lt]; lia.
  - replace ((0 <=? _) && (_ <? _))%bool with true; [split; [lia | reflexivity]|].
    symmetry. apply andb_true_iff. split; [apply Z.leb_le | apply Z.ltb_lt]; lia.
Qed.

Lemma py_index_out_of_range {A} (l : list A) idx :
  ~ (- Z.of_nat (length l) <= idx < Z.of_nat (length l)) ->
  py_index l idx = None.
Proof.
  intros Hidx. unfold py_index.
  destruct (Z.ltb_spec idx 0).
  - replace ((0 <=? _) && (_ <? _))%bool with false; [reflexivity|].
    symmetry. apply andb_false_iff. left. apply Z.leb_gt. lia.
  - replace ((0 <=? _) && (_ <? _))%bool with false; [reflexivity|].
    symmetry. apply andb_false_iff. right. apply Z.ltb_ge. lia.
Qed.

Lemma built_dataset_labels a w w' self :
  construct a w = (w', Ok self) ->
  exists entry,
    folder_map_get (arg_data_type a) = Some entry /\
    Forall (label_in_range entry) (targets self).
Proof.
  unfold construct. destruct (__init__ a w) as [w2 o] eqn:Hinit.
  destruct o as [self1|partial e]; intros [= <- <-].
  apply init_spec in Hinit
    as (entry & root & size & Hentry & _ & _ & _ &
        (_ & imgs & labels & _ & Hlabels & _ & Hall) & _).
  cbn in Hlabels. subst labels. eauto.
Qed.

(** On a built dataset an index in range finds an image and a label at
    the same position. *)
Lemma getitem_at_position a w w' self idx :
  construct a w = (w', Ok self) ->
  - Z.of_nat (__len__ self) <= idx < Z.of_nat (__len__ self) ->
  let pos := Z.to_nat (if idx <? 0 then idx + Z.of_nat (__len__ self) else idx) in
  exists arr t,
    data self !! pos = Some arr /\ targets self !! pos = Some t /\
    __getitem__ fromarray self idx
    = match fromarray arr with
      | Ok img => Item (match transform self with
                        | Some f => f img
                        | None => img
                        end) t
      | Raise e => Propagated e
      end.
Proof.
  intros Hbuilt Hidx pos. unfold __len__ in *.
  pose proof (built_dataset_balanced _ _ _ _ Hbuilt) as Hbal.
  destruct (py_index_in_range (data self) idx Hidx) as [Hpos Hdata].
  assert (Hidx' : - Z.of_nat (length (targets self)) <= idx
                  < Z.of_nat (length (targets self))) by (rewrite <- Hbal; exact Hidx).
  destruct (py_index_in_range (targets self) idx Hidx') as [Hpos' Htargets].
  rewrite <- Hbal in Htargets. fold pos in Hpos, Hdata, Htargets.
  destruct (lookup_lt_is_Some_2 (data self) pos Hpos) as [arr Harr].
  destruct (lookup_lt_is_Some_2 (targets self) pos) as [t Ht]; [lia|].
  exists arr, t. split; [exact Harr|]. split; [exact Ht|].
  unfold __getitem__. rewrite Hdata, Harr, Htargets, Ht.
  destruct (fromarray arr); reflexivity.
Qed.

(** X6: on a built dataset an index from [-len] to [len - 1] is never an
    [IndexError]: the image at that position, made an image and
    transformed, comes back with the label at the same position, which is a
    character of the class range; an exception of the image library is
    passed on. *)
Theorem getitem_in_range a w w' self idx :
  construct a w = (w', Ok self) ->
  - Z.of_nat (__len__ self) <= idx < Z.of_nat (__len__ self) ->
  let pos := Z.to_nat (if idx <? 0 then idx + Z.of_nat (__len__ self) else idx) in
  exists arr t entry,
    data self !! pos = Some arr /\ targets self !! pos = Some t /\
    folder_map_get (arg_data_type a) = Some entry /\ label_in_range entry t /\
    __getitem__ fromarray self idx
    = match fromarray arr with
      | Ok img => Item (match transform self with
                        | Some f => f img
                        | None => img
                        end) t
      | Raise e => Propagated e
      end.
Proof.
  intros Hbuilt Hidx pos.
  destruct (getitem_at_position _ _ _ _ _ Hbuilt Hidx) as (arr & t & Harr & Ht & Hget).
  destruct (built_dataset_labels _ _ _ _ Hbuilt) as (entry & Hentry & Hall).
  exists arr, t, entry. split; [exact Harr|]. split; [exact Ht|].
  split; [exact Hentry|]. split; [|exact Hget].
  rewrite Forall_forall in Hall. apply Hall.
  apply list_elem_of_lookup. eauto.
Qed.

(** X7: on a built dataset [__getitem__] raises an [IndexError] exactly
    when the index is below [-len] or at least [len]. *)
Theorem getitem_index_error a w w' self idx :
  construct a w = (w', Ok self) ->
  (exists msg, __getitem__ fromarray self idx = IndexError msg) <->
  ~ (- Z.of_nat (__len__ self) <= idx < Z.of_nat (__len__ self)).
Proof.
  intros Hbuilt. split.
  - intros [msg Hmsg] Hidx.
    destruct (getitem_at_position _ _ _ _ _ Hbuilt Hidx)
      as (arr & t & _ & _ & Hget).
    rewrite Hget in Hmsg. destruct (fromarray arr); discriminate.
  - intros Hidx. unfold __getitem__, __len__ in *.
    rewrite (py_index_out_of_range _ _ Hidx). eauto.
Qed.

(** X8: on a built dataset of length [len] the index [i - len] names the
    same item as [i], for [0 <= i < len]. *)
Theorem getitem_negative_index a w w' self i :
  construct a w = (w', Ok self) ->
  0 <= i < Z.of_nat (__len__ self) ->
  __getitem__ fromarray self (i - Z.of_nat (__len__ self))
  = __getitem__ fromarray self i.
Proof.
  intros Hbuilt Hi. unfold __len__ in *.
  pose proof (built_dataset_balanced _ _ _ _ Hbuilt) as Hbal.
  assert (Hsame : forall {A} (l : list A),
    length l = length (data self) ->
    py_index l (i - Z.of_nat (length (data self))) = py_index l i).
  { intros A l Hl.
    destruct (py_index_in_range l (i - Z.of_nat (length (data self))))
      as [_ ->]; [lia|].
    destruct (py_index_in_range l i) as [_ ->]; [lia|].
    f_equal.
    destruct (Z.ltb_spec (i - Z.of_nat (length (data self))) 0);
      destruct (Z.ltb_spec i 0); lia. }
  unfold __getitem__.
  rewrite (Hsame _ (data self) eq_refl), (Hsame _ (targets self)) by lia.
  reflexivity.
Qed.

End Indexing.

(** ** The file system operations *)

Section Disk.

Lemma fs_lookup_insert_eq fs p n :
  p <> "" -> fs_lookup (<[p := n]> fs) p = Some n.
Proof.
  intros Hp. apply String.eqb_neq in Hp. unfold fs_lookup. rewrite Hp.
  apply lookup_insert_eq.
Qed.

Lemma fs_lookup_insert_ne fs p q n :
  q <> p -> fs_lookup (<[p := n]> fs) q = fs_lookup fs q.
Proof.
  intros Hq. unfold fs_lookup. destruct (String.eqb q ""); [reflexivity|].
  apply lookup_insert_ne. congruence.
Qed.

Lemma fs_lookup_delete_eq fs p : fs_lookup (delete p fs) p = None.
Proof.
  unfold fs_lookup. destruct (String.eqb p ""); [reflexivity|].
  apply lookup_delete_eq.
Qed.

Lemma fs_lookup_delete_ne fs p q :
  q <> p -> fs_lookup (delete p fs) q = fs_lookup fs q.
Proof.
  intros Hq. unfold fs_lookup. destruct (String.eqb q ""); [reflexivity|].
  apply lookup_delete_ne. congruence.
Qed.

(** Writing and unlinking [p] touch [p] and the listing of its directory,
    nothing else. *)
Lemma fs_write_other p content fs q :
  q <> p -> q <> dirname p ->
  fs_lookup (fs_write p content fs) q = fs_lookup fs q.
Proof.
  intros Hp Hd. unfold fs_write.
  destruct (fs_lookup fs (dirname p)) as [[es|c]|];
    [destruct (existsb (String.eqb (basename p)) es)| |];
    rewrite ?(fs_lookup_insert_ne _ (dirname p)) by exact Hd;
    apply fs_lookup_insert_ne; exact Hp.
Qed.

Lemma fs_unlink_other p fs q :
  q <> p -> q <> dirname p ->
  fs_lookup (fs_unlink p fs) q = fs_lookup fs q.
Proof.
  intros Hp Hd. unfold fs_unlink.
  destruct (fs_lookup fs (dirname p)) as [[es|c]|];
    rewrite ?(fs_lookup_insert_ne _ (dirname p)) by exact Hd;
    apply fs_lookup_delete_ne; exact Hp.
Qed.

Lemma fs_unlink_self p content fs :
  fs_lookup fs p = Some (File content) -> fs_lookup (fs_unlink p fs) p = None.
Proof.
  intros Hfile. unfold fs_unlink.
  destruct (fs_lookup fs (dirname p)) as [[es|c]|] eqn:Hparent;
    try apply fs_lookup_delete_eq.
  rewrite fs_lookup_insert_ne; [apply fs_lookup_delete_eq|].
  intros Heq. rewrite <- Heq in Hparent. congruence.
Qed.

Lemma fs_unlink_keeps_dir p content fs q es :
  fs_lookup fs p = Some (File content) ->
  fs_lookup fs q = Some (Dir es) ->
  exists es', fs_lookup (fs_unlink p fs) q = Some (Dir es').
Proof.
  intros Hfile Hdir.
  assert (Hqp : q <> p) by congruence.
  destruct (String.eqb_spec q (dirname p)) as [->|Hqd].
  - unfold fs_unlink. rewrite Hdir. eexists. apply fs_lookup_insert_eq.
    eapply fs_lookup_some_nonempty. exact Hdir.
  - exists es. rewrite fs_unlink_other; assumption.
Qed.

End Disk.

(** ** The archive step *)

Section Archive.
Context `{Collaborators}.

Lemma bind_ok {S A B} (m : M S A) (k : A -> M S B) s s1 a :
  m s = (s1, Ok a) -> bind m k s = k a s1.
Proof. unfold bind. intros ->. reflexivity. Qed.

Lemma bind_raise {S A B} (m : M S A) (k : A -> M S B) s s1 e :
  m s = (s1, Raise e) -> bind m k s = (s1, Raise e).
Proof. unfold bind. intros ->. reflexivity. Qed.

Lemma lift_io_exists p self w :
  lift_io (os_path_exists p) (self, w)
  = ((self, logged (EvExists p) w), Ok (fs_exists (w_fs w) p)).
Proof. reflexivity. Qed.

Lemma lift_io_logged {A} ev (io : IO A) self w w' r :
  io (logged ev w) = (w', r) ->
  lift_io (bind (log ev) (fun _ => io)) (self, w) = ((self, w'), r).
Proof.
  intros Hio. unfold lift_io, bind, log, modify. cbn [snd fst].
  change {| w_fs := w_fs w; w_stdin := w_stdin w; w_log := ev :: w_log w |}
    with (logged ev w).
  rewrite Hio. reflexivity.
Qed.

(** The head of [_download]: the test on the archive, then one of the two
    branches. *)
Lemma download_unfold need self w :
  _download need (self, w) =
  (let arch_path := arch_path_of (root_dir self) in
   let fetch :=
     lift_io (log (EvDownload url (root_dir self) arch_name md5_hash) ;;;
              download_and_extract_archive url (root_dir self) arch_name md5_hash) in
   if fs_exists (w_fs w) arch_path
   then
     (intact <- lift_io (log (EvCheckIntegrity arch_path md5_hash) ;;;
                         check_integrity arch_path md5_hash) ;;
      if intact
      then lift_io (print "Files already downloaded and verified")
      else
        ans <- lift_io (input prompt_corrupted) ;;
        if existsb (String.eqb ans) ["Y"; "y"; ""]
        then
          lift_io (os_remove arch_path) ;;;
          lift_io (os_remove (slice_to (String.length arch_path - 4) arch_path)) ;;;
          fetch
        else raise (RuntimeError msg_corrupted))
   else if negb need
   then raise (RuntimeError msg_not_found)
   else fetch) (self, logged (EvExists (arch_path_of (root_dir self))) w).
Proof.
  unfold _download. rewrite bind_get_self.
  cbv zeta. fold (arch_path_of (root_dir self)).
  rewrite (bind_ok _ _ _ _ _ (lift_io_exists _ self w)).
  reflexivity.
Qed.

(** X10: when the archive file is there, [need_to_download] is never
    looked at: [_download] does the same whatever its value, and so does the
    constructor whatever [download] is. *)
Theorem download_flag_is_ignored_when_archive_exists a w root b1 b2 :
  arg_root_dir a = Some root ->
  fs_exists (w_fs w) (arch_path_of (expanduser root)) = true ->
  (forall self v,
     root_dir self = expanduser root -> w_fs v = w_fs w ->
     _download b1 (self, v) = _download b2 (self, v)) /\
  __init__ (with_download b1 a) w = __init__ (with_download b2 a) w /\
  construct (with_download b1 a) w = construct (with_download b2 a) w.
Proof.
  intros Hroot Harch.
  assert (Hsame : forall self v,
    root_dir self = expanduser root -> w_fs v = w_fs w ->
    _download b1 (self, v) = _download b2 (self, v)).
  { intros self v Hrd Hfs. rewrite !download_unfold. cbv zeta.
    rewrite Hrd, Hfs, Harch. reflexivity. }
  assert (Hinit : __init__ (with_download b1 a) w = __init__ (with_download b2 a) w).
  { assert (Hscan : forall self,
      root_dir self = expanduser root ->
      match os_path_exists (root_dir self) w with
      | (w1, Ok true) =>
          match _process b1 (arg_data_type a) (self, w1) with
          | ((self', w2), Ok _) => (w2, Built self')
          | ((self', w2), Raise e) => (w2, Failed (Some self') e)
          end
      | (w1, Ok false) =>
          (w1, Failed (Some self) (RuntimeError (msg_no_path (root_dir self))))
      | (w1, Raise e) => (w1, Failed (Some self) e)
      end
      = match os_path_exists (root_dir self) w with
        | (w1, Ok true) =>
            match _process b2 (arg_data_type a) (self, w1) with
            | ((self', w2), Ok _) => (w2, Built self')
            | ((self', w2), Raise e) => (w2, Failed (Some self') e)
            end
        | (w1, Ok false) =>
            (w1, Failed (Some self) (RuntimeError (msg_no_path (root_dir self))))
        | (w1, Raise e) => (w1, Failed (Some self) e)
        end).
    { intros self Hrd.
      destruct (os_path_exists (root_dir self) w) as [w1 [[|]|e]] eqn:Hex;
        try reflexivity.
      apply os_path_exists_spec in Hex as ([Hfs _] & _).
      unfold _process, bind. rewrite (Hsame self w1 Hrd Hfs). reflexivity. }
    unfold __init__.
    cbn [with_download arg_data_type arg_root_dir arg_size_limit
      arg_size_limit_per_class arg_train arg_transform arg_download].
    destruct (folder_map_get (arg_data_type a)) as [entry|]; [|reflexivity].
    rewrite Hroot. cbv zeta.
    destruct (arg_size_limit_per_class a); cbn [negb].
    - apply Hscan. reflexivity.
    - destruct (int_truediv (arg_size_limit a) (Z.of_nat (len entry)));
        [apply Hscan|]; reflexivity. }
  split; [exact Hsame|]. split; [exact Hinit|].
  unfold construct. rewrite Hinit. reflexivity.
Qed.

Lemma lift_io_input prompt self w ans rest :
  w_stdin w = ans :: rest ->
  lift_io (input prompt) (self, w)
  = ((self, {| w_fs := w_fs w; w_stdin := rest;
               w_log := EvInput prompt :: w_log w |}), Ok ans).
Proof.
  intros Hin. unfold lift_io, input, bind, log, modify, get, ret.
  cbn [snd fst w_stdin w_fs w_log]. rewrite Hin. reflexivity.
Qed.

Lemma lift_io_remove p self w :
  lift_io (os_remove p) (self, w)
  = match fs_lookup (w_fs w) p with
    | Some (File _) =>
        ((self, set_fs (fs_unlink p) (logged (EvRemove p) w)), Ok tt)
    | Some (Dir _) => ((self, logged (EvRemove p) w), Raise (IsADirectoryError p))
    | None => ((self, logged (EvRemove p) w), Raise (FileNotFoundError p))
    end.
Proof.
  unfold lift_io, os_remove, bind, log, modify, get, ret, raise.
  cbn [snd fst w_stdin w_fs w_log].
  destruct (fs_lookup (w_fs w) p) as [[es|c]|]; reflexivity.
Qed.

(** X9: with a recognized [data_type], a cap that could be computed (the
    limit is per class, or the float quotient did not overflow), the root
    there, the archive missing and [download] left false, construction
    raises the not-found error after two looks at the file system; nothing
    is listed, read or fetched. *)
Theorem missing_archive_is_an_error a w root entry :
  arg_root_dir a = Some root ->
  folder_map_get (arg_data_type a) = Some entry ->
  (arg_size_limit_per_class a = true \/
   exists q, int_truediv (arg_size_limit a) (Z.of_nat (len entry)) = Ok q) ->
  fs_exists (w_fs w) (expanduser root) = true ->
  fs_exists (w_fs w) (arch_path_of (expanduser root)) = false ->
  arg_download a = false ->
  construct a w
  = (logged (EvExists (arch_path_of (expanduser root)))
       (logged (EvExists (expanduser root)) w),
     Raise (RuntimeError msg_not_found)).
Proof.
  intros Hroot Hentry Hcap Hexists Harch Hflag.
  assert (Hscan : forall self,
    root_dir self = expanduser root ->
    match os_path_exists (root_dir self) w with
    | (w1, Ok true) =>
        match _process (arg_download a) (arg_data_type a) (self, w1) with
        | ((self', w2), Ok _) => (w2, Built self')
        | ((self', w2), Raise e) => (w2, Failed (Some self') e)
        end
    | (w1, Ok false) =>
        (w1, Failed (Some self) (RuntimeError (msg_no_path (root_dir self))))
    | (w1, Raise e) => (w1, Failed (Some self) e)
    end
    = (logged (EvExists (arch_path_of (expanduser root)))
         (logged (EvExists (expanduser root)) w),
       Failed (Some self) (RuntimeError msg_not_found))).
  { intros self Hrd. rewrite Hrd.
    change (os_path_exists (expanduser root) w)
      with (logged (EvExists (expanduser root)) w,
            @Ok bool (fs_exists (w_fs w) (expanduser root))).
    rewrite Hexists. unfold _process.
    rewrite (bind_raise _ _ _ (self, logged (EvExists (arch_path_of (expanduser root)))
                                       (logged (EvExists (expanduser root)) w))
               (RuntimeError msg_not_found)); [reflexivity|].
    rewrite download_unfold. cbv zeta. rewrite Hrd.
    cbn [logged w_fs]. rewrite Harch, Hflag. reflexivity. }
  unfold construct, __init__. rewrite Hentry, Hroot. cbv zeta.
  destruct (arg_size_limit_per_class a); cbn [negb].
  - rewrite Hscan; reflexivity.
  - destruct Hcap as [Hcap | (q & Hq)]; [discriminate|].
    rewrite Hq, Hscan; reflexivity.
Qed.

(** X11: a corrupted archive and an answer other than [Y], [y] or the
    empty line: the corruption error is raised, one line of input is
    consumed, and the file system stays as the integrity check left it. *)
Theorem declined_recovery_deletes_nothing need self w w2 ans rest :
  let arch := arch_path_of (root_dir self) in
  fs_exists (w_fs w) arch = true ->
  check_integrity arch md5_hash
    (logged (EvCheckIntegrity arch md5_hash) (logged (EvExists arch) w))
  = (w2, Ok false) ->
  w_stdin w2 = ans :: rest ->
  ans <> "Y" -> ans <> "y" -> ans <> "" ->
  _download need (self, w)
  = ((self, {| w_fs := w_fs w2; w_stdin := rest;
               w_log := EvInput prompt_corrupted :: w_log w2 |}),
     Raise (RuntimeError msg_corrupted)).
Proof.
  intros arch Harch Hcheck Hin HY Hy He. subst arch.
  rewrite download_unfold. cbv zeta. rewrite Harch.
  rewrite (bind_ok _ _ _ _ _ (lift_io_logged _ _ self _ _ _ Hcheck)).
  rewrite (bind_ok _ _ _ _ _ (lift_io_input _ self _ _ _ Hin)).
  apply String.eqb_neq in HY, Hy, He.
  cbn [existsb]. rewrite HY, Hy, He. reflexivity.
Qed.

(** X12: a corrupted archive, the operator agrees, and the extracted
    sibling (the archive path less its last four characters) is a
    directory: the archive is unlinked, then removing the sibling raises
    [IsADirectoryError]; nothing is downloaded. *)
Theorem recovery_stops_at_extracted_directory need self w w2 ans rest content es :
  let arch := arch_path_of (root_dir self) in
  let sibling := sibling_of (root_dir self) in
  fs_exists (w_fs w) arch = true ->
  check_integrity arch md5_hash
    (logged (EvCheckIntegrity arch md5_hash) (logged (EvExists arch) w))
  = (w2, Ok false) ->
  w_stdin w2 = ans :: rest ->
  ans = "Y" \/ ans = "y" \/ ans = "" ->
  fs_lookup (w_fs w2) arch = Some (File content) ->
  fs_lookup (w_fs w2) sibling = Some (Dir es) ->
  exists w',
    _download need (self, w) = ((self, w'), Raise (IsADirectoryError sibling)) /\
    w_fs w' = fs_unlink arch (w_fs w2) /\
    fs_lookup (w_fs w') arch = None /\
    w_stdin w' = rest /\
    w_log w' = EvRemove sibling :: EvRemove arch :: EvInput prompt_corrupted
               :: w_log w2.
Proof.
  intros arch sibling Harch Hcheck Hin Hans Hfile Hdir.
  destruct (fs_unlink_keeps_dir arch content (w_fs w2) sibling es Hfile Hdir)
    as (es' & Hdir').
  eexists. split.
  - rewrite download_unfold. cbv zeta. fold arch. rewrite Harch.
    rewrite (bind_ok _ _ _ _ _ (lift_io_logged _ _ self _ _ _ Hcheck)).
    rewrite (bind_ok _ _ _ _ _ (lift_io_input _ self _ _ _ Hin)).
    replace (existsb (String.eqb ans) ["Y"; "y"; ""]) with true
      by (destruct Hans as [->|[->| ->]]; reflexivity).
    unfold bind at 1. rewrite lift_io_remove. cbn [w_fs]. rewrite Hfile.
    unfold bind at 1. rewrite lift_io_remove.
    change (slice_to (String.length arch - 4) arch) with sibling.
    cbn [set_fs logged w_fs]. rewrite Hdir'. reflexivity.
  - cbn [logged set_fs w_fs w_stdin w_log].
    split; [reflexivity|]. split; [eapply fs_unlink_self; exact Hfile|].
    split; reflexivity.
Qed.

(** X13: the same, with a regular file for sibling: both files are
    unlinked and only then does the download start, on a file system that
    holds neither. *)
Theorem recovery_removes_both_files_first need self w w2 ans rest content content' :
  let arch := arch_path_of (root_dir self) in
  let sibling := sibling_of (root_dir self) in
  fs_exists (w_fs w) arch = true ->
  check_integrity arch md5_hash
    (logged (EvCheckIntegrity arch md5_hash) (logged (EvExists arch) w))
  = (w2, Ok false) ->
  w_stdin w2 = ans :: rest ->
  ans = "Y" \/ ans = "y" \/ ans = "" ->
  fs_lookup (w_fs w2) arch = Some (File content) ->
  fs_lookup (fs_unlink arch (w_fs w2)) sibling = Some (File content') ->
  exists w5,
    _download need (self, w)
    = (let (w', r) := download_and_extract_archive url (root_dir self) arch_name
                        md5_hash w5 in ((self, w'), r)) /\
    w_fs w5 = fs_unlink sibling (fs_unlink arch (w_fs w2)) /\
    fs_lookup (w_fs w5) sibling = None /\
    w_stdin w5 = rest /\
    w_log w5 = EvDownload url (root_dir self) arch_name md5_hash
               :: EvRemove sibling :: EvRemove arch :: EvInput prompt_corrupted
               :: w_log w2.
Proof.
  intros arch sibling Harch Hcheck Hin Hans Hfile Hsib.
  eexists. split.
  - rewrite download_unfold. cbv zeta. fold arch. rewrite Harch.
    rewrite (bind_ok _ _ _ _ _ (lift_io_logged _ _ self _ _ _ Hcheck)).
    rewrite (bind_ok _ _ _ _ _ (lift_io_input _ self _ _ _ Hin)).
    replace (existsb (String.eqb ans) ["Y"; "y"; ""]) with true
      by (destruct Hans as [->|[->| ->]]; reflexivity).
    unfold bind at 1. rewrite lift_io_remove. cbn [w_fs]. rewrite Hfile.
    unfold bind at 1. rewrite lift_io_remove.
    change (slice_to (String.length arch - 4) arch) with sibling.
    cbn [set_fs logged w_fs]. rewrite Hsib.
    unfold lift_io, bind, log, modify. cbn [snd fst w_fs w_stdin w_log].
    reflexivity.
  - cbn [w_fs w_stdin w_log].
    split; [reflexivity|]. split; [eapply fs_unlink_self; exact Hsib|].
    split; reflexivity.
Qed.

End Archive.

(** ** More on saving and loading *)

Section Snapshots.
Context `{Collaborators}.

(** Where [save_to_file] can leave the file system: as it was, with the
    file created empty, or with the file written. *)
Lemma save_fs_cases obj filepath force_overwrite w :
  w_stdin (fst (save_to_file obj filepath force_overwrite w)) = w_stdin w /\
  (w_fs (fst (save_to_file obj filepath force_overwrite w)) = w_fs w \/
   w_fs (fst (save_to_file obj filepath force_overwrite w))
   = fs_write filepath [] (w_fs w) \/
   exists content,
     w_fs (fst (save_to_file obj filepath force_overwrite w))
     = fs_write filepath content (fs_write filepath [] (w_fs w))).
Proof.
  destruct obj as [d|type_repr]; [|split; [reflexivity | left; reflexivity]].
  cbv [save_to_file bind os_path_exists log modify get ret raise print].
  cbn [w_fs w_stdin w_log].
  destruct (fs_exists (w_fs w) (dirname filepath)); cbn [negb fst w_fs w_stdin];
    [|split; [reflexivity | left; reflexivity]].
  destruct force_overwrite; cbn [negb w_fs w_stdin w_log].
  2: destruct (fs_exists (w_fs w) filepath);
       [split; [reflexivity | left; reflexivity]|].
  all: cbv [open_wb bind log modify get ret raise set_fs file_write];
    cbn [w_fs w_stdin w_log];
    destruct (fs_lookup (w_fs w) filepath) as [[es|c]|];
    try destruct (String.eqb (dirname filepath) "");
    try destruct (fs_lookup (w_fs w) (dirname filepath)) as [[es'|c']|];
    try destruct (compress_pickle_dump d);
    cbn [fst w_fs w_stdin]; (split; [reflexivity|]);
    first [left; reflexivity | right; left; reflexivity
          | right; right; eexists; reflexivity].
Qed.

(** X15: whatever it is given and however it ends, [save_to_file] leaves
    every path other than the file and its directory as it was, and reads
    nothing from standard input. *)
Theorem save_touches_only_its_path obj filepath force_overwrite w q :
  q <> filepath -> q <> dirname filepath ->
  fs_lookup (w_fs (fst (save_to_file obj filepath force_overwrite w))) q
  = fs_lookup (w_fs w) q /\
  w_stdin (fst (save_to_file obj filepath force_overwrite w)) = w_stdin w.
Proof.
  intros Hq Hd.
  destruct (save_fs_cases obj filepath force_overwrite w)
    as (Hin & [-> | [-> | (content & ->)]]);
    (split; [|exact Hin]);
    rewrite ?fs_write_other by assumption; reflexivity.
Qed.

(** X14: when the directory of the path does not exist, [save_to_file]
    raises the folder error after that one test, forced or not, and the
    file system is as it was. *)
Theorem save_needs_the_folder d filepath force_overwrite w :
  fs_exists (w_fs w) (dirname filepath) = false ->
  save_to_file (ObjDataset d) filepath force_overwrite w
  = (logged (EvExists (dirname filepath)) w,
     Raise (RuntimeError (msg_no_folder (dirname filepath)))).
Proof.
  intros Hmissing.
  cbv [save_to_file bind os_path_exists log modify get ret raise].
  cbn [w_fs w_stdin w_log]. rewrite Hmissing. reflexivity.
Qed.

Lemma save_forced d filepath w es content :
  fs_lookup (w_fs w) (dirname filepath) = Some (Dir es) ->
  (forall es', fs_lookup (w_fs w) filepath <> Some (Dir es')) ->
  compress_pickle_dump d = Ok content ->
  exists w1,
    save_to_file (ObjDataset d) filepath true w = (w1, Ok tt) /\
    w_fs w1 = fs_write filepath content (fs_write filepath [] (w_fs w)).
Proof.
  intros Hparent Hnodir Hdump.
  pose proof (fs_lookup_some_nonempty _ _ _ Hparent) as Hne.
  apply String.eqb_neq in Hne.
  assert (Hpexists : fs_exists (w_fs w) (dirname filepath) = true)
    by (unfold fs_exists; rewrite Hparent; reflexivity).
  cbv [save_to_file bind os_path_exists log modify get ret raise].
  cbn [w_fs w_stdin w_log]. rewrite Hpexists.
  cbn [negb w_fs w_stdin w_log].
  cbv [open_wb bind log modify get ret raise set_fs file_write].
  cbn [w_fs w_stdin w_log]. rewrite Hne, Hparent, Hdump.
  destruct (fs_lookup (w_fs w) filepath) as [[es'|c]|] eqn:Hfile;
    [exfalso; eapply Hnodir; reflexivity | |];
    cbn [w_fs w_stdin w_log]; eexists; split; reflexivity.
Qed.

(** X16: when the directory part of the path names an existing directory,
    the path is not a directory and the serialization of the dataset
    succeeds, a forced save replaces whatever file is at the path: the file
    then holds the new bytes, and loading it gives the dataset just saved,
    not the one that was there, provided the serialization library reads
    back what it wrote. *)
Theorem forced_save_then_load d filepath w es content :
  (forall d0 b, compress_pickle_dump d0 = Ok b ->
                compress_pickle_load b = Ok (ObjDataset d0)) ->
  fs_lookup (w_fs w) (dirname filepath) = Some (Dir es) ->
  (forall es', fs_lookup (w_fs w) filepath <> Some (Dir es')) ->
  compress_pickle_dump d = Ok content ->
  exists w1 w2,
    save_to_file (ObjDataset d) filepath true w = (w1, Ok tt) /\
    fs_lookup (w_fs w1) filepath = Some (File content) /\
    load_from_file filepath w1 = (w2, Ok (ObjDataset d)).
Proof.
  intros Hround Hparent Hnodir Hdump.
  assert (Hdir : dirname filepath <> filepath).
  { intros Heq. rewrite Heq in Hparent. eapply Hnodir. exact Hparent. }
  assert (Hne : filepath <> "").
  { intros ->. apply fs_lookup_some_nonempty in Hparent. apply Hparent. reflexivity. }
  destruct (save_forced d filepath w es content Hparent Hnodir Hdump)
    as (w1 & Hsave & Hfs1).
  assert (Hfile : fs_lookup (w_fs w1) filepath = Some (File content))
    by (rewrite Hfs1; apply fs_lookup_write; assumption).
  destruct (load_existing_file filepath w1 content Hfile) as (w2 & Hload & _).
  rewrite (Hround d content Hdump) in Hload.
  exists w1, w2. auto.
Qed.

(** X17: [load_from_file] only reads.  It leaves the file system and the
    standard input as they were; it raises the not-found error exactly when
    nothing is at the path, and otherwise hands back what the
    serialization library makes of the file, dataset or not. *)
Theorem load_only_reads filepath w :
  same_disk w (fst (load_from_file filepath w)) /\
  snd (load_from_file filepath w)
  = match fs_lookup (w_fs w) filepath with
    | None => Raise (RuntimeError (msg_no_file filepath))
    | Some (Dir _) => Raise (IsADirectoryError filepath)
    | Some (File content) =>
        match compress_pickle_load content with
        | Ok obj => Ok obj
        | Raise e => Raise e
        end
    end.
Proof.
  cbv [load_from_file bind os_path_exists open_rb_read log modify get ret raise].
  cbn [w_fs w_stdin w_log]. unfold fs_exists.
  destruct (fs_lookup (w_fs w) filepath) as [[es|content]|] eqn:Hfile;
    cbn [negb w_fs w_stdin w_log]; rewrite ?Hfile;
    try destruct (compress_pickle_load content);
    split; try split; reflexivity.
Qed.


End Snapshots.

(** * The further properties on concrete runs *)

Lemma train_run_built :
  @construct Demo.demo (Demo.train_args 2) Demo.train_world
  = (Runs.train_after, Ok Runs.train_self).
Proof. vm_compute. reflexivity. Qed.

Lemma zero_run_built :
  @construct Demo.demo (Demo.train_args 0) Demo.train_world
  = (Runs.zero_after, Ok Runs.zero_self).
Proof. vm_compute. reflexivity. Qed.

(** X1 on the training run: three labels [0], then nothing for the other
    nine digits. *)
Lemma labels_of_built_dataset_witness :
  @construct Demo.demo (Demo.train_args 2) Demo.train_world
  = (Runs.train_after, Ok Runs.train_self) /\
  folder_map_get (arg_data_type (Demo.train_args 2)) = Some Runs.digits /\
  targets Runs.train_self =
  concat (map (fun c => replicate (walk_count (w_fs Runs.train_after)
                                     Runs.train_self c) (chr c))
              (seq (start Runs.digits) (len Runs.digits))) /\
  __len__ Runs.train_self
  = sum_list (map (walk_count (w_fs Runs.train_after) Runs.train_self)
                  (seq (start Runs.digits) (len Runs.digits))).
Proof.
  split; [exact train_run_built|]. split; [reflexivity|].
  exact (@labels_of_built_dataset Demo.demo (Demo.train_args 2) Demo.train_world
           Runs.train_after Runs.train_self Runs.digits train_run_built eq_refl).
Defined.

(** X2 on the training run, class [0]: one file of [hsf_0], then the two
    of [hsf_1]. *)
Lemma class_count_of_built_dataset_witness :
  @construct Demo.demo (Demo.train_args 2) Demo.train_world
  = (Runs.train_after, Ok Runs.train_self) /\
  folder_map_get (arg_data_type (Demo.train_args 2)) = Some Runs.digits /\
  (start Runs.digits <= 0x30 < start Runs.digits + len Runs.digits)%nat /\
  count_label (chr 0x30) (targets Runs.train_self) = 3%nat.
Proof.
  assert (Hc : (start Runs.digits <= 0x30 < start Runs.digits + len Runs.digits)%nat)
    by (cbn; lia).
  split; [exact train_run_built|]. split; [reflexivity|]. split; [exact Hc|].
  rewrite (@class_count_of_built_dataset Demo.demo (Demo.train_args 2)
             Demo.train_world Runs.train_after Runs.train_self Runs.digits
             0x30%nat train_run_built eq_refl Hc).
  vm_compute. reflexivity.
Defined.

(** X3 on the training run, class [0]: three samples, between
    [min 2 3 = 2] and [8 * 2 - 7 = 9]. *)
Lemma train_limit_bounds_witness :
  @construct Demo.demo (Demo.train_args 2) Demo.train_world
  = (Runs.train_after, Ok Runs.train_self) /\
  arg_train (Demo.train_args 2) = true /\
  arg_size_limit_per_class (Demo.train_args 2) = true /\
  1 <= arg_size_limit (Demo.train_args 2) /\
  Z.min 2 (Z.of_nat (class_files (w_fs Runs.train_after)
                       (root_dir Runs.train_self) true 0x30))
  <= Z.of_nat (count_label (chr 0x30) (targets Runs.train_self))
  <= 8 * 2 - 7.
Proof.
  assert (Hl : 1 <= arg_size_limit (Demo.train_args 2)) by (cbn; lia).
  assert (Hc : (start Runs.digits <= 0x30 < start Runs.digits + len Runs.digits)%nat)
    by (cbn; lia).
  split; [exact train_run_built|]. split; [reflexivity|]. split; [reflexivity|].
  split; [exact Hl|].
  exact (proj1 (@train_limit_bounds Demo.demo (Demo.train_args 2)
                  Demo.train_world Runs.train_after Runs.train_self Runs.digits
                  0x30%nat train_run_built eq_refl eq_refl Hl eq_refl Hc)).
Defined.

(** X4 on the training tree with a limit of 0: class [0] keeps all three
    files. *)
Lemma nonpositive_limit_witness :
  @construct Demo.demo (Demo.train_args 0) Demo.train_world
  = (Runs.zero_after, Ok Runs.zero_self) /\
  arg_size_limit_per_class (Demo.train_args 0) = true /\
  arg_size_limit (Demo.train_args 0) <= 0 /\
  count_label (chr 0x30) (targets Runs.zero_self) = 3%nat.
Proof.
  assert (Hl : arg_size_limit (Demo.train_args 0) <= 0) by (cbn; lia).
  assert (Hc : (start Runs.digits <= 0x30 < start Runs.digits + len Runs.digits)%nat)
    by (cbn; lia).
  split; [exact zero_run_built|]. split; [reflexivity|]. split; [exact Hl|].
  rewrite (@nonpositive_limit_takes_everything Demo.demo (Demo.train_args 0)
             Demo.train_world Runs.zero_after Runs.zero_self Runs.digits
             0x30%nat zero_run_built eq_refl Hl eq_refl Hc).
  vm_compute. reflexivity.
Defined.

(** X5 on the training run: [hsf_0] of class [0] is a directory. *)
Lemma built_dataset_has_class_folders_witness :
  @construct Demo.demo (Demo.train_args 2) Demo.train_world
  = (Runs.train_after, Ok Runs.train_self) /\
  exists es,
    fs_lookup (w_fs Runs.train_after)
      (if train Runs.train_self then hsf_path (root_dir Runs.train_self) 0x30 0
       else test_path (root_dir Runs.train_self) 0x30) = Some (Dir es).
Proof.
  assert (Hc : (start Runs.digits <= 0x30 < start Runs.digits + len Runs.digits)%nat)
    by (cbn; lia).
  split; [exact train_run_built|].
  exact (@built_dataset_has_class_folders Demo.demo (Demo.train_args 2)
           Demo.train_world Runs.train_after Runs.train_self Runs.digits
           0x30%nat train_run_built eq_refl Hc).
Defined.

(** X6 on the training run: the index [-1] names the last of the three
    samples, with the label [0]. *)
Lemma getitem_in_range_witness :
  @construct Demo.demo (Demo.train_args 2) Demo.train_world
  = (Runs.train_after, Ok Runs.train_self) /\
  - Z.of_nat (__len__ Runs.train_self) <= -1 < Z.of_nat (__len__ Runs.train_self) /\
  exists arr t entry,
    data Runs.train_self !! 2%nat = Some arr /\
    targets Runs.train_self !! 2%nat = Some t /\
    folder_map_get (arg_data_type (Demo.train_args 2)) = Some entry /\
    label_in_range entry t /\
    __getitem__ Runs.fromarray Runs.train_self (-1)
    = match Runs.fromarray arr with
      | Ok img => Item (match transform Runs.train_self with
                        | Some f => f img
                        | None => img
                        end) t
      | Raise e => Propagated e
      end.
Proof.
  assert (Hidx : - Z.of_nat (__len__ Runs.train_self) <= -1
                 < Z.of_nat (__len__ Runs.train_self))
    by (vm_compute; split; [discriminate | reflexivity]).
  split; [exact train_run_built|]. split; [exact Hidx|].
  exact (@getitem_in_range Demo.demo Runs.fromarray (Demo.train_args 2)
           Demo.train_world Runs.train_after Runs.train_self (-1)
           train_run_built Hidx).
Defined.

(** X7 on the training run: the index 3 is out of range. *)
Lemma getitem_index_error_witness :
  @construct Demo.demo (Demo.train_args 2) Demo.train_world
  = (Runs.train_after, Ok Runs.train_self) /\
  ~ (- Z.of_nat (__len__ Runs.train_self) <= 3 < Z.of_nat (__len__ Runs.train_self)) /\
  exists msg, __getitem__ Runs.fromarray Runs.train_self 3 = IndexError msg.
Proof.
  assert (Hidx : ~ (- Z.of_nat (__len__ Runs.train_self) <= 3
                    < Z.of_nat (__len__ Runs.train_self)))
    by (vm_compute; intros [_ Hlt]; discriminate).
  split; [exact train_run_built|]. split; [exact Hidx|].
  exact (proj2 (@getitem_index_error Demo.demo Runs.fromarray (Demo.train_args 2)
                  Demo.train_world Runs.train_after Runs.train_self 3
                  train_run_built) Hidx).
Defined.

(** X8 on the training run: the indices [-2] and [1] name the same item. *)
Lemma getitem_negative_index_witness :
  @construct Demo.demo (Demo.train_args 2) Demo.train_world
  = (Runs.train_after, Ok Runs.train_self) /\
  0 <= 1 < Z.of_nat (__len__ Runs.train_self) /\
  __getitem__ Runs.fromarray Runs.train_self (1 - Z.of_nat (__len__ Runs.train_self))
  = __getitem__ Runs.fromarray Runs.train_self 1.
Proof.
  assert (Hi : 0 <= 1 < Z.of_nat (__len__ Runs.train_self))
    by (vm_compute; split; [discriminate | reflexivity]).
  split; [exact train_run_built|]. split; [exact Hi|].
  exact (@getitem_negative_index Demo.demo Runs.fromarray (Demo.train_args 2)
           Demo.train_world Runs.train_after Runs.train_self 1
           train_run_built Hi).
Defined.

(** X9 on a root that holds no archive. *)
Lemma missing_archive_witness :
  arg_root_dir (Demo.train_args 2) = Some "/data" /\
  folder_map_get (arg_data_type (Demo.train_args 2)) = Some Runs.digits /\
  arg_size_limit_per_class (Demo.train_args 2) = true /\
  fs_exists (w_fs Runs.no_archive_world) (@expanduser Demo.demo "/data") = true /\
  fs_exists (w_fs Runs.no_archive_world)
            (arch_path_of (@expanduser Demo.demo "/data")) = false /\
  arg_download (Demo.train_args 2) = false /\
  @construct Demo.demo (Demo.train_args 2) Runs.no_archive_world
  = (logged (EvExists (arch_path_of (@expanduser Demo.demo "/data")))
       (logged (EvExists (@expanduser Demo.demo "/data")) Runs.no_archive_world),
     Raise (RuntimeError msg_not_found)).
Proof.
  assert (Hroot : fs_exists (w_fs Runs.no_archive_world)
                    (@expanduser Demo.demo "/data") = true)
    by (vm_compute; reflexivity).
  assert (Harch : fs_exists (w_fs Runs.no_archive_world)
                    (arch_path_of (@expanduser Demo.demo "/data")) = false)
    by (vm_compute; reflexivity).
  split; [reflexivity|]. split; [reflexivity|]. split; [reflexivity|].
  split; [exact Hroot|]. split; [exact Harch|]. split; [reflexivity|].
  exact (@missing_archive_is_an_error Demo.demo (Demo.train_args 2)
           Runs.no_archive_world "/data" Runs.digits eq_refl eq_refl
           (or_introl eq_refl) Hroot Harch eq_refl).
Defined.

(** X10 on the training tree, whose archive is there. *)
Lemma download_flag_witness :
  arg_root_dir (Demo.train_args 2) = Some "/data" /\
  fs_exists (w_fs Demo.train_world) (arch_path_of (@expanduser Demo.demo "/data"))
  = true /\
  @construct Demo.demo (with_download true (Demo.train_args 2)) Demo.train_world
  = @construct Demo.demo (with_download false (Demo.train_args 2)) Demo.train_world.
Proof.
  assert (Harch : fs_exists (w_fs Demo.train_world)
                    (arch_path_of (@expanduser Demo.demo "/data")) = true)
    by (vm_compute; reflexivity).
  split; [reflexivity|]. split; [exact Harch|].
  exact (proj2 (proj2 (@download_flag_is_ignored_when_archive_exists Demo.demo
                         (Demo.train_args 2) Demo.train_world "/data" true false
                         eq_refl Harch))).
Defined.

(** X11: the archive fails its check and the operator types [n]. *)
Lemma declined_recovery_witness :
  fs_exists (w_fs (Runs.corrupted_world (Dir []) "n"))
            (arch_path_of (root_dir Demo.empty_dataset)) = true /\
  @check_integrity Runs.corrupt (arch_path_of (root_dir Demo.empty_dataset)) md5_hash
    (logged (EvCheckIntegrity (arch_path_of (root_dir Demo.empty_dataset)) md5_hash)
       (logged (EvExists (arch_path_of (root_dir Demo.empty_dataset)))
          (Runs.corrupted_world (Dir []) "n")))
  = (Runs.checked_world (Dir []) "n", Ok false) /\
  w_stdin (Runs.checked_world (Dir []) "n") = ["n"] /\
  @_download Runs.corrupt false (Demo.empty_dataset, Runs.corrupted_world (Dir []) "n")
  = ((Demo.empty_dataset,
      {| w_fs := w_fs (Runs.checked_world (Dir []) "n"); w_stdin := [];
         w_log := EvInput prompt_corrupted
                  :: w_log (Runs.checked_world (Dir []) "n") |}),
     Raise (RuntimeError msg_corrupted)).
Proof.
  assert (Harch : fs_exists (w_fs (Runs.corrupted_world (Dir []) "n"))
                    (arch_path_of (root_dir Demo.empty_dataset)) = true)
    by (vm_compute; reflexivity).
  split; [exact Harch|]. split; [reflexivity|]. split; [reflexivity|].
  apply (@declined_recovery_deletes_nothing Runs.corrupt false Demo.empty_dataset
           (Runs.corrupted_world (Dir []) "n") (Runs.checked_world (Dir []) "n")
           "n" [] Harch eq_refl eq_refl); discriminate.
Defined.

(** X12: the operator types [y] and [by_class] is the extracted
    directory. *)
Lemma recovery_stops_witness :
  fs_exists (w_fs (Runs.corrupted_world (Dir []) "y"))
            (arch_path_of (root_dir Demo.empty_dataset)) = true /\
  w_stdin (Runs.checked_world (Dir []) "y") = ["y"] /\
  fs_lookup (w_fs (Runs.checked_world (Dir []) "y"))
            (arch_path_of (root_dir Demo.empty_dataset)) = Some (File [x00]) /\
  fs_lookup (w_fs (Runs.checked_world (Dir []) "y"))
            (sibling_of (root_dir Demo.empty_dataset)) = Some (Dir []) /\
  exists w',
    @_download Runs.corrupt true
      (Demo.empty_dataset, Runs.corrupted_world (Dir []) "y")
    = ((Demo.empty_dataset, w'),
       Raise (IsADirectoryError (sibling_of (root_dir Demo.empty_dataset)))) /\
    fs_lookup (w_fs w') (arch_path_of (root_dir Demo.empty_dataset)) = None.
Proof.
  assert (Harch : fs_exists (w_fs (Runs.corrupted_world (Dir []) "y"))
                    (arch_path_of (root_dir Demo.empty_dataset)) = true)
    by (vm_compute; reflexivity).
  assert (Hfile : fs_lookup (w_fs (Runs.checked_world (Dir []) "y"))
                    (arch_path_of (root_dir Demo.empty_dataset))
                  = Some (File [x00])) by (vm_compute; reflexivity).
  assert (Hdir : fs_lookup (w_fs (Runs.checked_world (Dir []) "y"))
                   (sibling_of (root_dir Demo.empty_dataset)) = Some (Dir []))
    by (vm_compute; reflexivity).
  split; [exact Harch|]. split; [reflexivity|]. split; [exact Hfile|].
  split; [exact Hdir|].
  destruct (@recovery_stops_at_extracted_directory Runs.corrupt true
              Demo.empty_dataset (Runs.corrupted_world (Dir []) "y")
              (Runs.checked_world (Dir []) "y") "y" [] [x00] []
              Harch eq_refl eq_refl (or_intror (or_introl eq_refl)) Hfile Hdir)
    as (w' & Hrun & _ & Hgone & _).
  exists w'. split; [exact Hrun | exact Hgone].
Defined.

(** X13: the operator types [Y] and [by_class] is a regular file. *)
Lemma recovery_removes_both_witness :
  fs_exists (w_fs (Runs.corrupted_world (File []) "Y"))
            (arch_path_of (root_dir Demo.empty_dataset)) = true /\
  fs_lookup (w_fs (Runs.checked_world (File []) "Y"))
            (arch_path_of (root_dir Demo.empty_dataset)) = Some (File [x00]) /\
  fs_lookup (fs_unlink (arch_path_of (root_dir Demo.empty_dataset))
                       (w_fs (Runs.checked_world (File []) "Y")))
            (sibling_of (root_dir Demo.empty_dataset)) = Some (File []) /\
  exists w5,
    @_download Runs.corrupt true
      (Demo.empty_dataset, Runs.corrupted_world (File []) "Y")
    = (let (w', r) := @download_and_extract_archive Runs.corrupt url
                        (root_dir Demo.empty_dataset) arch_name md5_hash w5 in
       ((Demo.empty_dataset, w'), r)) /\
    fs_lookup (w_fs w5) (sibling_of (root_dir Demo.empty_dataset)) = None.
Proof.
  assert (Harch : fs_exists (w_fs (Runs.corrupted_world (File []) "Y"))
                    (arch_path_of (root_dir Demo.empty_dataset)) = true)
    by (vm_compute; reflexivity).
  assert (Hfile : fs_lookup (w_fs (Runs.checked_world (File []) "Y"))
                    (arch_path_of (root_dir Demo.empty_dataset))
                  = Some (File [x00])) by (vm_compute; reflexivity).
  assert (Hsib : fs_lookup (fs_unlink (arch_path_of (root_dir Demo.empty_dataset))
                              (w_fs (Runs.checked_world (File []) "Y")))
                   (sibling_of (root_dir Demo.empty_dataset)) = Some (File []))
    by (vm_compute; reflexivity).
  split; [exact Harch|]. split; [exact Hfile|]. split; [exact Hsib|].
  destruct (@recovery_removes_both_files_first Runs.corrupt true
              Demo.empty_dataset (Runs.corrupted_world (File []) "Y")
              (Runs.checked_world (File []) "Y") "Y" [] [x00] []
              Harch eq_refl eq_refl (or_introl eq_refl) Hfile Hsib)
    as (w5 & Hrun & _ & Hgone & _).
  exists w5. split; [exact Hrun | exact Hgone].
Defined.

(** X14: saving under a directory that does not exist. *)
Lemma save_needs_the_folder_witness :
  fs_exists (w_fs Demo.out_world) (dirname "/nowhere/ds.lzma") = false /\
  @save_to_file Demo.demo (ObjDataset Demo.empty_dataset) "/nowhere/ds.lzma" true
                Demo.out_world
  = (logged (EvExists (dirname "/nowhere/ds.lzma")) Demo.out_world,
     Raise (RuntimeError (msg_no_folder (dirname "/nowhere/ds.lzma")))).
Proof.
  assert (Hmissing : fs_exists (w_fs Demo.out_world) (dirname "/nowhere/ds.lzma")
                     = false) by (vm_compute; reflexivity).
  split; [exact Hmissing|].
  exact (@save_needs_the_folder Demo.demo Demo.empty_dataset "/nowhere/ds.lzma"
           true Demo.out_world Hmissing).
Defined.

(** X15: a forced save to [/out/new.lzma] leaves [/out/ds.lzma] alone. *)
Lemma save_touches_only_its_path_witness :
  "/out/ds.lzma" <> "/out/new.lzma" /\
  "/out/ds.lzma" <> dirname "/out/new.lzma" /\
  fs_lookup (w_fs (fst (@save_to_file Demo.demo (ObjDataset Demo.empty_dataset)
                          "/out/new.lzma" true Runs.saved_world))) "/out/ds.lzma"
  = fs_lookup (w_fs Runs.saved_world) "/out/ds.lzma".
Proof.
  assert (Hq : "/out/ds.lzma" <> "/out/new.lzma") by discriminate.
  assert (Hd : "/out/ds.lzma" <> dirname "/out/new.lzma")
    by (vm_compute; discriminate).
  split; [exact Hq|]. split; [exact Hd|].
  exact (proj1 (@save_touches_only_its_path Demo.demo
                  (ObjDataset Demo.empty_dataset) "/out/new.lzma" true
                  Runs.saved_world "/out/ds.lzma" Hq Hd)).
Defined.

(** X16: the three samples of the training run saved, forced, over the
    snapshot that [/out] holds, through the serializer of [Pickler]. *)
Lemma forced_save_then_load_witness :
  fs_lookup (w_fs Runs.saved_world) (dirname "/out/ds.lzma")
  = Some (Dir ["ds.lzma"]) /\
  fs_lookup (w_fs Runs.saved_world) "/out/ds.lzma" = Some (File [x02]) /\
  @compress_pickle_dump Pickler.collab Pickler.plain_self
  = Ok Pickler.plain_bytes /\
  exists w1 w2,
    @save_to_file Pickler.collab (ObjDataset Pickler.plain_self) "/out/ds.lzma"
                  true Runs.saved_world = (w1, Ok tt) /\
    fs_lookup (w_fs w1) "/out/ds.lzma" = Some (File Pickler.plain_bytes) /\
    @load_from_file Pickler.collab "/out/ds.lzma" w1
    = (w2, Ok (ObjDataset Pickler.plain_self)).
Proof.
  assert (Hparent : fs_lookup (w_fs Runs.saved_world) (dirname "/out/ds.lzma")
                    = Some (Dir ["ds.lzma"])) by (vm_compute; reflexivity).
  assert (Hold : fs_lookup (w_fs Runs.saved_world) "/out/ds.lzma"
                 = Some (File [x02])) by (vm_compute; reflexivity).
  assert (Hnodir : forall es',
            fs_lookup (w_fs Runs.saved_world) "/out/ds.lzma" <> Some (Dir es'))
    by (intros es'; rewrite Hold; discriminate).
  assert (Hdump : @compress_pickle_dump Pickler.collab Pickler.plain_self
                  = Ok Pickler.plain_bytes) by (vm_compute; reflexivity).
  split; [exact Hparent|]. split; [exact Hold|]. split; [exact Hdump|].
  exact (@forced_save_then_load Pickler.collab Pickler.plain_self "/out/ds.lzma"
           Runs.saved_world ["ds.lzma"] Pickler.plain_bytes
           pickler_round_trip Hparent Hnodir Hdump).
Defined.

